(** * MathJax v3: document discovery and the braket TeX extension

    A shallow embedding of
    - [HTMLDocument] (findPosition, mathItem, findMath, removeFromDocument),
    - [BraketMethods] (Braket, Bar) and
    - [BraketItem] (checkItem, toMml),
    followed by the properties established about them.

    JavaScript numbers that hold offsets, lengths and states are integers
    ([Z]); a call that would throw returns [None]. *)

From stdpp Require Import base option numbers list strings gmap.

Local Open Scope Z_scope.

(* ================================================================== *)
(** * Part I: the program *)
(* ================================================================== *)

(** ** core/MathItem: Location and ProtoItem (shapes used by the handler) *)

Module Location.
(** Modelled from the spec: the Location type of core/MathItem (not in
    src), the spec's Position [{node, n, delim}]; [node] is [null] for a
    position that was not found. *)
Record t (Node : Type) : Type := mk { node : option Node; n : Z; delim : string }.
Arguments mk {Node} _ _ _.
Arguments node {Node} _.
Arguments n {Node} _.
Arguments delim {Node} _.
End Location.

(** [HTMLNodeArray<N, T> = [N | T, number][][]]: one list of
    (node, text length) pairs per string of the string array. *)
Definition NodeList (Node : Type) : Type := list (Node * Z).
Definition HTMLNodeArray (Node : Type) : Type := list (NodeList Node).

Section FindPosition.
Context {Node : Type}.

(** The body of the [for (const list of nodes[N])] loop, with the running
    value of [index]. *)
Fixpoint scanRuns (runs : NodeList Node) (index : Z) (delim : string)
  : Location.t Node :=
  match runs with
  | [] => Location.mk None 0 delim
  | (node, n) :: rest =>
      if index <=? n then Location.mk (Some node) index delim
      else scanRuns rest (index - n) delim
  end.

(** [HTMLDocument.findPosition].  When [nodes[N]] is undefined the
    [for ... of] throws a TypeError: [None]. *)
Definition findPosition (N : nat) (index : Z) (delim : string)
    (nodes : HTMLNodeArray Node) : option (Location.t Node) :=
  match nodes !! N with
  | Some runs => Some (scanRuns runs index delim)
  | None => None
  end.

(** Total text length of a list of runs. *)
Definition runLength (runs : NodeList Node) : Z :=
  foldr (fun run acc => run.2 + acc) 0 runs.

(** The offset left when the scan reaches run [i]. *)
Definition remaining (runs : NodeList Node) (index : Z) (i : nat) : Z :=
  index - runLength (take i runs).

(** Re-deriving the linear offset from a location: some run [i] holds the
    location's node, and the lengths before it plus [n] give [k]. *)
Definition roundTrips (runs : NodeList Node) (k : Z) (loc : Location.t Node)
  : Prop :=
  exists (i : nat) (node : Node) (len : Z),
    runs !! i = Some (node, len) /\
    Location.node loc = Some node /\
    runLength (take i runs) + Location.n loc = k.

End FindPosition.

(** ** core/MathItem and core/InputJax: the shapes the document handles *)

Module ProtoItem.
(** Modelled from the spec: the ProtoItem type of core/MathItem (not in
    src), the spec's ProtoMatch, with the fields that HTMLDocument reads:
    the math found by an input jax, located either by offsets into string
    [n] of the string array ([start.n], [end.n]) or, for a jax that
    searches DOM nodes, by complete locations. *)
Record t (Node : Type) : Type := mk {
  math : string;
  start : Location.t Node;
  end_ : Location.t Node;
  open : string;
  close : string;
  n : nat;
  display : bool
}.
Arguments mk {Node} _ _ _ _ _ _ _.
Arguments math {Node} _.
Arguments start {Node} _.
Arguments end_ {Node} _.
Arguments open {Node} _.
Arguments close {Node} _.
Arguments n {Node} _.
Arguments display {Node} _.
End ProtoItem.

Module InputJax.
(** The part of the [InputJax] interface that [findMath] uses.
    [findMath(which: N | string[])] takes a DOM element or a string array. *)
Record t (N T : Type) : Type := mk {
  name : string;
  processStrings : bool;
  findMath : N + list string -> list (ProtoItem.t (N + T))
}.
Arguments mk {N T} _ _ _.
Arguments name {N T} _.
Arguments processStrings {N T} _.
Arguments findMath {N T} _ _.
End InputJax.

Module MathItem.
(** Modelled from the spec: the MathItem of core/MathItem (not in src),
    the spec's Match: the arguments of
    [new HTMLMathItem(math, jax, display, start, end)] and the render
    state. *)
Record t (N T : Type) : Type := mk {
  math : string;
  inputJax : InputJax.t N T;
  display : bool;
  start : Location.t (N + T);
  end_ : Location.t (N + T);
  state : Z
}.
Arguments mk {N T} _ _ _ _ _ _.
Arguments math {N T} _.
Arguments inputJax {N T} _.
Arguments display {N T} _.
Arguments start {N T} _.
Arguments end_ {N T} _.
Arguments state {N T} _.
End MathItem.

(** ** handlers/html/HTMLDocument *)

(** What the document calls but this file does not define: the option
    merging and the adaptor's element lookup, the DomStrings parser, the
    MathList merge, and the STATE constants and the state setter of
    core/MathItem. *)
Class Host (N T D : Type) : Type := {
  OptionList : Type;
  (** [adaptor.getElements(userOptions({elements: [adaptor.body(document)]},
      options)['elements'], document)] *)
  getElements : OptionList -> D -> list N;
  (** [domStrings.find(container)]: the strings and their node lists *)
  domStringsFind : N -> list string * HTMLNodeArray (N + T);
  (** [math.merge(list)], as the new value of the list *)
  merge : list (MathItem.t N T) -> list (MathItem.t N T) -> list (MathItem.t N T);
  STATE_UNPROCESSED : Z;
  STATE_TYPESET : Z;
  STATE_INSERTED : Z;
  (** [math.state(state, restore)], as the item afterwards *)
  mathItemState : Z -> bool -> MathItem.t N T -> MathItem.t N T;
  (** Modelled from the spec: [MathItem.state] is not in src.  The spec
      has it as the explicit rollback of the render state: afterwards the
      item is in the state given.  What else the call does to the item,
      with or without restore, is not fixed here. *)
  mathItemState_state : forall state restore item,
    MathItem.state (mathItemState state restore item) = state
}.

Module HTMLDocument.
Section WithHost.
Context {N T D : Type} {host : Host N T D}.

(** Calls that leave the document, in program order.  The source keeps no
    such record; it is here so that "how often" and "in which order" can
    be stated. *)
Inductive Call : Type :=
  | ExtractStrings (container : N)
  | FindInStrings (jax : InputJax.t N T) (strings : list string)
  | FindInNode (jax : InputJax.t N T) (container : N).

(** The fields of the document object that the methods below touch.
    [processed] is the JS object of flags; a missing key reads as
    undefined, which is falsy. *)
Record t : Type := mk {
  document : D;
  adaptorDocument : option D;
  inputJax : list (InputJax.t N T);
  math : list (MathItem.t N T);
  processed : gmap string bool;
  calls : list Call
}.

Definition isProcessed (key : string) (doc : t) : bool :=
  default false (processed doc !! key).

Definition setProcessed (key : string) (b : bool) (doc : t) : t :=
  mk (document doc) (adaptorDocument doc) (inputJax doc) (math doc)
     (<[key := b]> (processed doc)) (calls doc).

Definition setMath (items : list (MathItem.t N T)) (doc : t) : t :=
  mk (document doc) (adaptorDocument doc) (inputJax doc) items
     (processed doc) (calls doc).

Definition setAdaptorDocument (doc : t) : t :=
  mk (document doc) (Some (document doc)) (inputJax doc) (math doc)
     (processed doc) (calls doc).

Definition record (c : Call) (doc : t) : t :=
  mk (document doc) (adaptorDocument doc) (inputJax doc) (math doc)
     (processed doc) (calls doc ++ [c]).

(** [new HTMLMathItem(math, jax, display, start, end)] *)
Definition HTMLMathItem (math : string) (jax : InputJax.t N T) (display : bool)
    (start end_ : Location.t (N + T)) : MathItem.t N T :=
  MathItem.mk math jax display start end_ STATE_UNPROCESSED.

(** [HTMLDocument.mathItem] *)
Definition mathItem (item : ProtoItem.t (N + T)) (jax : InputJax.t N T)
    (nodes : HTMLNodeArray (N + T)) : option (MathItem.t N T) :=
  let math := ProtoItem.math item in
  start ← findPosition (ProtoItem.n item) (Location.n (ProtoItem.start item))
            (ProtoItem.open item) nodes;
  end_ ← findPosition (ProtoItem.n item) (Location.n (ProtoItem.end_ item))
            (ProtoItem.close item) nodes;
  Some (HTMLMathItem math jax (ProtoItem.display item) start end_).

(** The item built for a jax that reports complete locations. *)
Definition nodeItem (jax : InputJax.t N T) (math : ProtoItem.t (N + T))
  : MathItem.t N T :=
  HTMLMathItem (ProtoItem.math math) jax (ProtoItem.display math)
    (ProtoItem.start math) (ProtoItem.end_ math).

(** [[strings, nodes]], or [None] while both are still [null]. *)
Definition StringCache : Type := option (list string * HTMLNodeArray (N + T)).

(** One turn of [for (const jax of this.inputJax)]. *)
Definition searchWith (container : N) (jax : InputJax.t N T)
    (st : t * StringCache) : option (t * StringCache) :=
  let '(doc, cache) := st in
  if InputJax.processStrings jax then
    let '(doc, (strings, nodes)) :=
      match cache with
      | None => (record (ExtractStrings container) doc, domStringsFind container)
      | Some found => (doc, found)
      end in
    let doc := record (FindInStrings jax strings) doc in
    list ← mapM (fun math => mathItem math jax nodes)
                (InputJax.findMath jax (inr strings));
    Some (setMath (merge (math doc) list) doc, Some (strings, nodes))
  else
    let doc := record (FindInNode jax container) doc in
    let list := map (nodeItem jax) (InputJax.findMath jax (inl container)) in
    Some (setMath (merge (math doc) list) doc, cache).

Fixpoint eachJax (container : N) (jaxes : list (InputJax.t N T))
    (st : t * StringCache) : option (t * StringCache) :=
  match jaxes with
  | [] => Some st
  | jax :: rest => st ← searchWith container jax st; eachJax container rest st
  end.

(** [for (const container of ...)]; the cache starts empty for each
    container. *)
Fixpoint eachContainer (containers : list N) (doc : t) : option t :=
  match containers with
  | [] => Some doc
  | container :: rest =>
      st ← eachJax container (inputJax doc) (doc, None);
      eachContainer rest st.1
  end.

(** [HTMLDocument.findMath] *)
Definition findMath (options : OptionList) (doc : t) : option t :=
  if negb (isProcessed "findMath" doc) then
    let doc := setAdaptorDocument doc in
    doc ← eachContainer (getElements options (document doc)) doc;
    Some (setProcessed "findMath" true doc)
  else Some doc.

(** [math.state(state, restore)]: the host's state setter, see
    [mathItemState]. *)
Definition setState (state : Z) (restore : bool) (item : MathItem.t N T)
  : MathItem.t N T :=
  mathItemState state restore item.

(** The body of [for (const math of this.math)] in removeFromDocument. *)
Definition rollBack (restore : bool) (item : MathItem.t N T) : MathItem.t N T :=
  if MathItem.state item >=? STATE_INSERTED
  then setState STATE_TYPESET restore item
  else item.

(** [HTMLDocument.removeFromDocument] *)
Definition removeFromDocument (restore : bool) (doc : t) : t :=
  let doc :=
    if isProcessed "updateDocument" doc
    then setMath (map (rollBack restore) (math doc)) doc
    else doc in
  setProcessed "updateDocument" false doc.

(** The containers whose strings were extracted, in order. *)
Definition extractions (cs : list Call) : list N :=
  omap (fun c => match c with ExtractStrings container => Some container
                            | _ => None end) cs.

(** The cache holds nothing or what the extraction gives for the
    container at hand. *)
Definition cacheFor (container : N) (cache : StringCache) : Prop :=
  cache = None \/ cache = Some (domStringsFind container).

(** What a run over the input jax of one container adds to the calls. *)
Definition jaxCallsOk (container : N) (jaxes : list (InputJax.t N T))
    (cache : StringCache) (new : list Call) : Prop :=
  extractions new
    = (if cache is Some _ then []
       else if existsb InputJax.processStrings jaxes then [container] else []) /\
  (forall jax c, FindInNode jax c ∈ new <->
     c = container /\ jax ∈ jaxes /\ InputJax.processStrings jax = false) /\
  (forall jax strings, FindInStrings jax strings ∈ new ->
     jax ∈ jaxes /\ InputJax.processStrings jax = true /\
     strings = (domStringsFind container).1).

End WithHost.
Arguments t N T D : clear implicits.
Arguments Call N T : clear implicits.
Arguments StringCache N T : clear implicits.
End HTMLDocument.

(** ** input/tex: nodes, stack items and the parser state *)

(** [TEXCLASS] of core/MmlTree/MmlNode, by name. *)
Inductive TEXCLASS : Type :=
  ORD | OP | BIN | REL | OPEN | CLOSE | PUNCT | INNER | VCENTER | NONE.

(** Values of the attribute objects given to [create]. *)
Inductive AttrValue : Type :=
  | ABool (b : bool)
  | AStr (s : string)
  | AClass (c : TEXCLASS).

(** [create('token', kind, attributes, text)] and
    [create('node', kind, children, attributes)]. *)
#[warnings="-register-all"] Inductive MmlNode : Type :=
  | createToken (kind : string) (attributes : gmap string AttrValue)
                (text : string)
  | createNode (kind : string) (children : list MmlNode)
               (attributes : gmap string AttrValue).

(** A JS number as far as the bar counters need it. *)
Inductive Number : Type := Int (z : Z) | Infinity | NaN.

(** Values of a stack item's property object. *)
Inductive Property : Type :=
  | PNum (x : Number)
  | PBool (b : bool)
  | PStr (s : string).

Module StackItem.
(** Modelled from the spec: the BaseItem of input/tex/StackItem (not in
    src), the spec's StackFrame: its kind, its property object and the
    nodes it holds, with the accessors the braket code calls. *)
Record t : Type := mk {
  kind : string;
  properties : gmap string Property;
  nodes : list MmlNode
}.

(** [factory.create(kind, ...nodes)]: a fresh item without properties. *)
Definition create (kind : string) (nodes : list MmlNode) : t := mk kind ∅ nodes.

(** [getProperty]: [None] is undefined. *)
Definition getProperty (key : string) (item : t) : option Property :=
  properties item !! key.

Definition setProperty (key : string) (value : Property) (item : t) : t :=
  mk (kind item) (<[key := value]> (properties item)) (nodes item).

(** [setProperties(def)]: Object.assign of the given pairs, in order. *)
Definition setProperties (def : list (string * Property)) (item : t) : t :=
  foldl (fun it kv => setProperty kv.1 kv.2 it) item def.

Definition isKind (kind' : string) (item : t) : bool := String.eqb kind' (kind item).

(** [BaseItem.Push(...nodes)] on the item's own node list. *)
Definition Push (new : list MmlNode) (item : t) : t :=
  mk (kind item) (properties item) (nodes item ++ new).
End StackItem.

(** [CheckType = [(MmlNode | StackItem)[], boolean]]; the array may be null. *)
Definition CheckType : Type := option (list (MmlNode + StackItem.t)) * bool.

(** The rest of the TeX engine, used but not defined here. *)
Class Engine : Type := {
  (** [TexParser.GetNext()] on the parser's string and position: the
      position it leaves the parser at, and the character it returns. *)
  GetNext : string -> nat -> nat * string;
  (** [Stack.Push] for the cases decided by items of other classes:
      the new stack, top first. *)
  stackPush : MmlNode + StackItem.t -> list StackItem.t -> list StackItem.t;
  (** [BaseItem.toMml()] *)
  superToMml : StackItem.t -> MmlNode;
  (** [BaseItem.checkItem(item)]: the receiver afterwards and the answer;
      [None] when it throws. *)
  superCheckItem : StackItem.t -> StackItem.t -> option (StackItem.t * CheckType);
  (** [ParseUtil.fenced(configuration, open, mml, close)] *)
  fenced : string -> MmlNode -> string -> MmlNode
}.

(** JS coercions met by the handlers. *)
Module JS.

(** ToNumber; a string operand is outside what is modelled (no handler
    stores a string under a counter) and reads as NaN. *)
Definition toNumber (v : option Property) : Number :=
  match v with
  | Some (PNum x) => x
  | Some (PBool true) => Int 1
  | Some (PBool false) => Int 0
  | Some (PStr _) => NaN
  | None => NaN
  end.

(** [a >= b] *)
Definition ge (a b : option Property) : bool :=
  match toNumber a, toNumber b with
  | NaN, _ | _, NaN => false
  | Int x, Int y => y <=? x
  | Infinity, _ => true
  | Int _, Infinity => false
  end.

(** [v + 1] *)
Definition succ (v : option Property) : Property :=
  match v with
  | Some (PStr s) => PStr (s +:+ "1")
  | _ => match toNumber v with
         | Int z => PNum (Int (z + 1))
         | other => PNum other
         end
  end.

(** ToBoolean *)
Definition truthy (v : option Property) : bool :=
  match v with
  | Some (PBool b) => b
  | Some (PNum (Int z)) => negb (z =? 0)
  | Some (PNum Infinity) => true
  | Some (PNum NaN) => false
  | Some (PStr s) => negb (String.eqb s "")
  | None => false
  end.

(** [v as string], for the text of a token. *)
Definition asString (v : option Property) : string :=
  match v with
  | Some (PStr s) => s
  | _ => ""
  end.

End JS.

(** Attribute objects written as literals in the source. *)
Definition object (l : list (string * AttrValue)) : gmap string AttrValue :=
  list_to_map l.

(** ** input/tex/braket/BraketItems: BraketItem *)

Module BraketItem.
Section WithEngine.
Context {engine : Engine}.

Definition kind : string := "braket".

Definition isOpen : bool := true.

(** [BraketItem.toMml] *)
Definition toMml (this : StackItem.t) : MmlNode :=
  let inner := superToMml this in
  let open := JS.asString (StackItem.getProperty "open" this) in
  let close := JS.asString (StackItem.getProperty "close" this) in
  if JS.truthy (StackItem.getProperty "stretchy" this) then
    fenced open inner close
  else
    let attrs := object [("fence", ABool true); ("stretchy", ABool false);
                        ("symmetric", ABool true); ("texClass", AClass OPEN)] in
    let openNode := createToken "mo" attrs open in
    let closeNode := createToken "mo" attrs close in
    let mrow := createNode "mrow" [openNode; inner; closeNode]
                  (object [("open", AStr open); ("close", AStr close);
                           ("texClass", AClass INNER)]) in
    mrow.

(** [BraketItem.checkItem]: the receiver afterwards and the answer. *)
Definition checkItem (this item : StackItem.t)
  : option (StackItem.t * CheckType) :=
  if StackItem.isKind "close" item then
    let node := toMml this in
    Some (this, (Some [inr (StackItem.create "mml" [node])], true))
  else if StackItem.isKind "mml" item then
    Some (StackItem.Push [superToMml item] this, (None, false))
  else superCheckItem this item.

End WithEngine.
End BraketItem.

(** ** input/tex/TexParser, as the braket handlers see it *)

(** What a handler did to the parser's stack, in program order.  Like
    [HTMLDocument.Call] this is book-keeping of the model. *)
Inductive Effect : Type :=
  | Pushed (x : MmlNode + StackItem.t)
  | PropertySet (key : string) (value : Property).

Module TexParser.
Section WithEngine.
Context {engine : Engine}.

(** [str] is the parser's [string], [i] its position; the stack has its
    top first. *)
Record t : Type := mk {
  str : string;
  i : nat;
  stack : list StackItem.t;
  journal : list Effect
}.

Definition setI (i' : nat) (p : t) : t := mk (str p) i' (stack p) (journal p).

Definition setStack (st : list StackItem.t) (p : t) : t :=
  mk (str p) (i p) st (journal p).

Definition log (e : Effect) (p : t) : t :=
  mk (str p) (i p) (stack p) (journal p ++ [e]).

(** [parser.stack.Top()] *)
Definition Top (p : t) : option StackItem.t := head (stack p).

(** Modelled from the spec: [Stack.Push] (input/tex/Stack, not in src)
    for one argument.  An MmlNode is wrapped into an 'mml' item and
    offered to the top item's checkItem.  When the top item is a
    BraketItem that is [BraketItem.checkItem], which takes the node in and
    answers [[null, false]]: a finished subtree is absorbed and the frame
    stays open, nothing is pushed.  Everything else is the engine's. *)
Definition stackPushOne (x : MmlNode + StackItem.t) (st : list StackItem.t)
  : list StackItem.t :=
  match x, st with
  | inl mml, top :: rest =>
      if StackItem.isKind BraketItem.kind top then
        match BraketItem.checkItem top (StackItem.create "mml" [mml]) with
        | Some (top', (None, false)) => top' :: rest
        | _ => stackPush x st
        end
      else stackPush x st
  | _, _ => stackPush x st
  end.

(** What a BraketItem on top of the stack adds to its nodes when [mml]
    is pushed: [item.toMml()] of the 'mml' item made for it. *)
Definition absorbed (mml : MmlNode) : MmlNode :=
  superToMml (StackItem.create "mml" [mml]).

(** [parser.Push(arg)] *)
Definition Push (x : MmlNode + StackItem.t) (p : t) : t :=
  log (Pushed x) (setStack (stackPushOne x (stack p)) p).

(** [top.setProperty(key, value)] for the item [top] that a handler took
    from [parser.stack.Top()]: it is used while that item still heads
    the stack. *)
Definition setTopProperty (key : string) (value : Property) (p : t) : t :=
  match stack p with
  | top :: rest =>
      log (PropertySet key value)
          (setStack (StackItem.setProperty key value top :: rest) p)
  | [] => p
  end.

End WithEngine.
End TexParser.

(** ** input/tex/braket/BraketMethods *)

Module BraketMethods.
Section WithEngine.
Context {engine : Engine}.

(** ['∥'] *)
Definition PARALLEL : string := "∥".

(** [BraketMethods.Braket] *)
Definition Braket (parser : TexParser.t) (name : string)
    (open close : string) (stretchy : bool) (barmax : Number) : TexParser.t :=
  let parser := TexParser.setI (S (TexParser.i parser)) parser in
  TexParser.Push
    (inr (StackItem.setProperties
            [("barmax", PNum barmax); ("barcount", PNum (Int 0));
             ("open", PStr open); ("close", PStr close);
             ("stretchy", PBool stretchy)]
            (StackItem.create "braket" [])))
    parser.

(** [let c = name === '|' ? '|' : '∥'] *)
Definition barChar (name : string) : string :=
  if String.eqb name "|" then "|" else PARALLEL.

(** The token of the fallback branch. *)
Definition plainBar (c : string) : MmlNode :=
  createToken "mo" (object [("texClass", AClass ORD); ("stretchy", ABool false)]) c.

(** [if (c === '|' && parser.GetNext() === '|') { parser.i++; c = '∥' }]:
    the parser and [c] afterwards. *)
Definition doubleBar (parser : TexParser.t) (c : string) : TexParser.t * string :=
  if String.eqb c "|" then
    let '(j, next) := GetNext (TexParser.str parser) (TexParser.i parser) in
    let parser := TexParser.setI j parser in
    if String.eqb next "|" then (TexParser.setI (S j) parser, PARALLEL)
    else (parser, c)
  else (parser, c).

(** [BraketMethods.Bar].  [None]: the stack is empty and [top.kind]
    throws. *)
Definition Bar (parser : TexParser.t) (name : string) : option TexParser.t :=
  let c := barChar name in
  top ← TexParser.Top parser;
  if negb (String.eqb (StackItem.kind top) "braket")
     || JS.ge (StackItem.getProperty "barcount" top)
              (StackItem.getProperty "barmax" top) then
    let mml := plainBar c in
    Some (TexParser.Push (inl mml) parser)
  else
    let '(parser, c) := doubleBar parser c in
    let stretchy := StackItem.getProperty "stretchy" top in
    if negb (JS.truthy stretchy) then
      let node := createToken "mo" (object [("stretchy", ABool false);
                                            ("braketbar", ABool true)]) c in
      Some (TexParser.Push (inl node) parser)
    else
      let node := createNode "TeXAtom" [] (object [("texClass", AClass CLOSE)]) in
      let parser := TexParser.Push (inl node) parser in
      let parser :=
        TexParser.setTopProperty "barcount"
          (JS.succ (TexParser.Top parser ≫= StackItem.getProperty "barcount"))
          parser in
      let node := createToken "mo" (object [("stretchy", ABool true);
                                            ("braketbar", ABool true)]) c in
      let parser := TexParser.Push (inl node) parser in
      let node := createNode "TeXAtom" [] (object [("texClass", AClass OPEN)]) in
      let parser := TexParser.Push (inl node) parser in
      Some parser.

End WithEngine.
End BraketMethods.

(** ** Reading the journal *)

(** Kind and text of the tokens pushed, in order. *)
Definition pushedTokens (es : list Effect) : list (string * string) :=
  omap (fun e => match e with
                 | Pushed (inl (createToken kind _ text)) => Some (kind, text)
                 | _ => None
                 end) es.

(** The values written to a property, in order. *)
Definition propertyWrites (key : string) (es : list Effect) : list Property :=
  omap (fun e => match e with
                 | PropertySet key' value =>
                     if String.eqb key key' then Some value else None
                 | _ => None
                 end) es.

(** ** Concrete inputs *)

Module Sample.

(** Two text nodes, "abc" and "defg", that form string 0. *)
Definition twoRuns : HTMLNodeArray nat := [[(1%nat, 3); (2%nat, 4)]].

Fixpoint skipBlanks (fuel : nat) (s : string) (i : nat) : nat :=
  match fuel with
  | O => i
  | S fuel =>
      if String.eqb (String.substring i 1 s) " " then skipBlanks fuel s (S i) else i
  end.

(** An engine to run the handlers with: the look-ahead skips blanks, an
    item that is pushed opens a frame, a node that is pushed is taken in
    by the top item, a single node is its own MathML, and a fence is an
    mrow of stretchy delimiters. *)
Definition engine : Engine := {|
  GetNext := fun s i =>
    let j := skipBlanks (String.length s) s i in (j, String.substring j 1 s);
  stackPush := fun x st =>
    match x, st with
    | inr item, _ => item :: st
    | inl mml, top :: rest => StackItem.Push [mml] top :: rest
    | inl mml, [] => [StackItem.create "mml" [mml]]
    end;
  superToMml := fun item =>
    match StackItem.nodes item with
    | [mml] => mml
    | nodes => createNode "inferredMrow" nodes ∅
    end;
  superCheckItem := fun this item => Some (this, (None, true));
  fenced := fun open mml close =>
    createNode "mrow"
      [createToken "mo" (object [("fence", ABool true); ("stretchy", ABool true);
                                 ("texClass", AClass OPEN)]) open;
       mml;
       createToken "mo" (object [("fence", ABool true); ("stretchy", ABool true);
                                 ("texClass", AClass CLOSE)]) close]
      (object [("open", AStr open); ("close", AStr close);
               ("texClass", AClass INNER)])
|}.

(** The bottom item of a parse. *)
Definition start : StackItem.t := StackItem.create "start" [].

(** A parser on [s] at position [i] with the given stack. *)
Definition parser (s : string) (i : nat) (st : list StackItem.t) : TexParser.t :=
  TexParser.mk s i st [].

(** The item that [Braket] pushes, with a bar count. *)
Definition braketItem (stretchy : bool) (barcount : Z) (barmax : Number)
  : StackItem.t :=
  StackItem.setProperties
    [("barmax", PNum barmax); ("barcount", PNum (Int barcount));
     ("open", PStr "{"); ("close", PStr "}"); ("stretchy", PBool stretchy)]
    (StackItem.create "braket" []).

(** A host with numbered elements; the options are the elements to
    search, every element holds the string "$x$" in one text node,
    merging appends, and setting the state of an item with restore puts
    its start and end at offset 0. *)
Definition host : Host nat nat unit := {|
  OptionList := list nat;
  getElements := fun options _ => options;
  domStringsFind := fun container => (["$x$"], [[(inr container, 3)]]);
  merge := fun old new => old ++ new;
  STATE_UNPROCESSED := 0;
  STATE_TYPESET := 2;
  STATE_INSERTED := 3;
  mathItemState := fun state restore item =>
    let at0 (loc : Location.t (nat + nat)) :=
      if restore then Location.mk (Location.node loc) 0 (Location.delim loc)
      else loc in
    MathItem.mk (MathItem.math item) (MathItem.inputJax item)
      (MathItem.display item) (at0 (MathItem.start item))
      (at0 (MathItem.end_ item)) state;
  mathItemState_state := fun state restore item => eq_refl
|}.

(** A jax that finds "x" between offsets 0 and 3 of string 0. *)
Definition texJax : InputJax.t nat nat :=
  InputJax.mk "TeX" true
    (fun which =>
       match which with
       | inr strings =>
           [ProtoItem.mk "x" (Location.mk None 0 "$") (Location.mk None 3 "$")
              "$" "$" 0%nat false]
       | inl _ => []
       end).

(** A jax that reports the container itself as math. *)
Definition mmlJax : InputJax.t nat nat :=
  InputJax.mk "MathML" false
    (fun which =>
       match which with
       | inl container =>
           [ProtoItem.mk "<math/>" (Location.mk (Some (inl container)) 0 "")
              (Location.mk (Some (inl container)) 0 "") "" "" 0%nat true]
       | inr _ => []
       end).

Definition newDocument (jaxes : list (InputJax.t nat nat))
    (items : list (MathItem.t nat nat)) (flags : gmap string bool)
  : HTMLDocument.t nat nat unit :=
  HTMLDocument.mk () None jaxes items flags [].

(** An inserted item and a compiled one. *)
Definition renderedItems : list (MathItem.t nat nat) :=
  [MathItem.mk "x" texJax false (Location.mk None 0 "$") (Location.mk None 3 "$") 3;
   MathItem.mk "y" texJax false (Location.mk None 4 "$") (Location.mk None 7 "$") 1].

End Sample.

(** ** handlers/html/HTMLDocument: the style sheet, rendering, TestMath *)

(** What [updateDocument], [findSheet] and [TestMath] call but this file
    does not define. *)
Class Page (N T D : Type) `{Host N T D} : Type := {
  (** [super.updateDocument()] of AbstractMathDocument, on the document
      object *)
  superUpdateDocument : HTMLDocument.t N T D -> HTMLDocument.t N T D;
  (** [outputJax.styleSheet(document)]; [None] is null *)
  styleSheet : HTMLDocument.t N T D -> option N;
  (** [adaptor.head(document)] *)
  adaptorHead : D -> N;
  (** [adaptor.tags(node, name)] *)
  adaptorTags : N -> string -> list N;
  (** [adaptor.getAttribute(node, name)]; [None] is null *)
  getAttribute : N -> string -> option string;
  (** [new HTMLMathItem(text, this.inputJax[0], display)] after
      [setMetrics(16, 8, 1000000, 1000000, 1)]; [inputJax[0]] may be
      undefined *)
  testMathItem : string -> option (InputJax.t N T) -> bool -> MathItem.t N T;
  (** [math.push(item)], as the new value of the list *)
  mathPush : list (MathItem.t N T) -> MathItem.t N T -> list (MathItem.t N T)
}.

Module HTMLDocumentPage.
Section WithPage.
Context {N T D : Type} `{page : Page N T D}.

Import HTMLDocument.

(** What [updateDocument] asks of the super class and of the adaptor, in
    program order. *)
Inductive DomCall : Type :=
  | SuperUpdateDocument
  | Replace (nnode onode : N)
  | Append (parent child : N).

(** [if (id)] for a string that may be null. *)
Definition truthyId (id : option string) : bool :=
  match id with
  | Some s => negb (String.eqb s "")
  | None => false
  end.

(** The loop of [findSheet] over [adaptor.tags(head, 'style')]. *)
Fixpoint firstWithId (sheets : list N) (id : option string) : option N :=
  match sheets with
  | [] => None
  | sheet :: rest =>
      if bool_decide (getAttribute sheet "id" = id) then Some sheet
      else firstWithId rest id
  end.

(** [HTMLDocument.findSheet] *)
Definition findSheet (head : N) (id : option string) : option N :=
  if truthyId id then firstWithId (adaptorTags head "style") id else None.

(** [HTMLDocument.documentStyleSheet] *)
Definition documentStyleSheet (doc : t N T D) : option N := styleSheet doc.

(** [HTMLDocument.updateDocument]: the document afterwards and the calls
    made. *)
Definition updateDocument (doc : t N T D) : t N T D * list DomCall :=
  if negb (isProcessed "updateDocument" doc) then
    let doc := superUpdateDocument doc in
    let dom :=
      match documentStyleSheet doc with
      | Some sheet =>
          let head := adaptorHead (document doc) in
          let styles := findSheet head (getAttribute sheet "id") in
          match styles with
          | Some styles => [Replace sheet styles]
          | None => [Append head sheet]
          end
      | None => []
      end in
    (setProcessed "updateDocument" true doc, SuperUpdateDocument :: dom)
  else (doc, []).

(** [HTMLDocument.TestMath] *)
Definition TestMath (text : string) (display : bool) (doc : t N T D) : t N T D :=
  if negb (isProcessed "TestMath" doc) then
    let math := testMathItem text (inputJax doc !! 0%nat) display in
    let doc := setMath (mathPush (HTMLDocument.math doc) math) doc in
    setProcessed "TestMath" true doc
  else doc.

(** The items that a jax on strings reports for a container all name a
    string that the container has. *)
Definition itemsInRange (container : N) (jax : InputJax.t N T) : Prop :=
  Forall (fun item =>
            (ProtoItem.n item < length (domStringsFind container).2)%nat)
         (InputJax.findMath jax (inr (domStringsFind container).1)).

End WithPage.
Arguments DomCall N : clear implicits.
End HTMLDocumentPage.

(** ** core/InputJax: AbstractInputJax *)

Module AbstractInputJax.
Section Defaults.
Context {N T : Type}.

(** [public static NAME: string = 'generic'] *)
Definition NAME : string := "generic".

(** [get processStrings() { return true; }] *)
Definition processStrings : bool := true.

(** [findMath(node, options) { return []; }] *)
Definition findMath (which : N + list string) : list (ProtoItem.t (N + T)) := [].

(** An input jax that keeps the defaults of the abstract class; [name] is
    the NAME of its class. *)
Definition make (name : string) : InputJax.t N T :=
  InputJax.mk name processStrings findMath.

End Defaults.
End AbstractInputJax.

(** ** Runs of the braket code over several inputs *)

Module BraketRun.
Section WithEngine.
Context {engine : Engine}.

(** The Bar handler called for each of [names] in turn. *)
Fixpoint bars (names : list string) (p : TexParser.t) : option TexParser.t :=
  match names with
  | [] => Some p
  | name :: rest => p ← BraketMethods.Bar p name; bars rest p
  end.

(** [checkItem] of a BraketItem called for each of [items] in turn, for as
    long as the answer is [[null, false]] (the BraketItem stays on the
    stack and nothing is pushed); [None] as soon as an answer is anything
    else. *)
Fixpoint offerAll (items : list StackItem.t) (this : StackItem.t)
  : option StackItem.t :=
  match items with
  | [] => Some this
  | item :: rest =>
      match BraketItem.checkItem this item with
      | Some (this, (None, false)) => offerAll rest this
      | _ => None
      end
  end.

End WithEngine.
End BraketRun.

(** ** More concrete inputs *)

Module SamplePage.

(** A page whose head (element 0) holds the style elements 10, 11 and 12
    with the ids "a", "MJX-styles" and "MJX-styles"; the output jax's
    sheet is element 20 with id "MJX-styles"; rendering inserts every
    item. *)
Definition page : @Page nat nat unit Sample.host := {|
  superUpdateDocument := fun doc =>
    HTMLDocument.setProcessed "updateDocument" true
      (HTMLDocument.setMath
         (map (HTMLDocument.setState (host := Sample.host) 3 false)
            (HTMLDocument.math doc)) doc);
  styleSheet := fun _ => Some 20%nat;
  adaptorHead := fun _ => 0%nat;
  adaptorTags := fun node name =>
    if (node =? 0)%nat && String.eqb name "style"
    then [10%nat; 11%nat; 12%nat] else [];
  getAttribute := fun node name =>
    if String.eqb name "id" then
      if (node =? 10)%nat then Some "a"
      else if (node =? 11)%nat || (node =? 12)%nat || (node =? 20)%nat
           then Some "MJX-styles"
      else None
    else None;
  testMathItem := fun text jax display =>
    MathItem.mk text (default Sample.texJax jax) display
      (Location.mk None 0 "") (Location.mk None 0 "") 0;
  mathPush := fun items item => items ++ [item]
|}.

(** A jax on strings whose item names string 1, which no element has. *)
Definition strayJax : InputJax.t nat nat :=
  InputJax.mk "stray" true
    (fun which =>
       [ProtoItem.mk "x" (Location.mk None 0 "$") (Location.mk None 3 "$")
          "$" "$" 1%nat false]).

End SamplePage.

Module SampleClosing.

(** Modelled from the spec: the stack items other than BraketItem are
    not in src.  Section 4.4, rule 1, lets a frame declare a closing rule:
    when the incoming item satisfies it the frame finalizes, pops itself
    and hands what it made to the frame below.  Here an item of kind 'sup'
    closes on any node it is offered: it makes an msup of its own nodes
    and that node and leaves the stack, and the item below takes the msup
    in.  Everything else is as in [Sample.engine]. *)
Definition engine : Engine := {|
  GetNext := @GetNext Sample.engine;
  stackPush := fun x st =>
    match x, st with
    | inl mml, top :: below :: rest =>
        if String.eqb (StackItem.kind top) "sup" then
          StackItem.Push [createNode "msup" (StackItem.nodes top ++ [mml]) ∅]
            below :: rest
        else @stackPush Sample.engine x st
    | _, _ => @stackPush Sample.engine x st
    end;
  superToMml := @superToMml Sample.engine;
  superCheckItem := @superCheckItem Sample.engine;
  fenced := @fenced Sample.engine
|}.

(** The item that waits for the superscript of "x". *)
Definition supItem : StackItem.t :=
  StackItem.mk "sup" ∅ [createToken "mi" ∅ "x"].

End SampleClosing.

(* ================================================================== *)
(** * Part II: properties *)
(* ================================================================== *)

Section FindPositionFacts.
Context {Node : Type}.
Implicit Types (runs : NodeList Node) (nodes : HTMLNodeArray Node).

Lemma runLength_app runs1 runs2 :
  runLength (runs1 ++ runs2) = runLength runs1 + runLength runs2.
Proof.
  induction runs1 as [|[nd len] runs1 IH]; simpl; [lia|].
  rewrite IH. lia.
Qed.

Lemma runLength_cons (nd : Node) len runs :
  runLength ((nd, len) :: runs) = len + runLength runs.
Proof. reflexivity. Qed.

Lemma remaining_S (nd : Node) len runs index i :
  remaining ((nd, len) :: runs) index (S i) = remaining runs (index - len) i.
Proof. unfold remaining. simpl. lia. Qed.

(** What the scan returns, in terms of the positions of the list. *)
Lemma scanRuns_spec runs index delim :
  (exists (i : nat) nd len,
      runs !! i = Some (nd, len) /\
      (forall (j : nat) nd' len', (j < i)%nat -> runs !! j = Some (nd', len') ->
         len' < remaining runs index j) /\
      remaining runs index i <= len /\
      scanRuns runs index delim =
        Location.mk (Some nd) (remaining runs index i) delim)
  \/
  ((forall (j : nat) nd' len', runs !! j = Some (nd', len') ->
      len' < remaining runs index j) /\
   scanRuns runs index delim = Location.mk None 0 delim).
Proof.
  revert index. induction runs as [|[nd len] runs IH]; intros index.
  - right. split; [|reflexivity]. intros j nd' len' Hj. discriminate.
  - simpl. destruct (Z.leb_spec index len) as [Hle|Hgt].
    + left. exists 0%nat, nd, len. unfold remaining. simpl.
      split; [reflexivity|]. split; [intros j ? ? Hj; lia|].
      split; [lia|]. f_equal. lia.
    + destruct (IH (index - len)) as
        [(i & nd1 & len1 & Hi & Hbefore & Hfit & Hres)|[Hall Hres]].
      * left. exists (S i), nd1, len1. rewrite remaining_S.
        repeat split; try assumption.
        intros [|j] nd' len' Hlt Hj.
        -- simpl in Hj. inversion Hj; subst. unfold remaining. simpl. lia.
        -- rewrite remaining_S. apply (Hbefore j nd' len'); [lia|exact Hj].
      * right. split; [|exact Hres].
        intros [|j] nd' len' Hj.
        -- simpl in Hj. inversion Hj; subst. unfold remaining. simpl. lia.
        -- rewrite remaining_S. apply (Hall j nd' len'). exact Hj.
Qed.

Lemma scanRuns_delim runs index delim :
  Location.delim (scanRuns runs index delim) = delim.
Proof.
  revert index. induction runs as [|[nd len] runs IH]; intros index; simpl.
  - reflexivity.
  - destruct (index <=? len); [reflexivity|apply IH].
Qed.

(** A scan over at least one run gives up only past the end of the text. *)
Lemma scanRuns_null_past_end runs index delim :
  runs <> [] ->
  Location.node (scanRuns runs index delim) = None ->
  runLength runs < index /\ Location.n (scanRuns runs index delim) = 0.
Proof.
  revert index. induction runs as [|[nd len] runs IH]; intros index Hne Hnull.
  - congruence.
  - simpl in *. destruct (Z.leb_spec index len) as [Hle|Hgt]; [discriminate|].
    destruct runs as [|run runs'].
    + simpl. split; [lia|reflexivity].
    + destruct (IH (index - len)) as [Hlt Hn]; [discriminate|exact Hnull|].
      split; [lia|exact Hn].
Qed.

(** With lengths that are not negative, an offset past the end of the text
    is never found. *)
Lemma scanRuns_past_end_null runs index delim :
  Forall (fun run => 0 <= run.2) runs ->
  runLength runs < index ->
  scanRuns runs index delim = Location.mk None 0 delim.
Proof.
  revert index. induction runs as [|[nd len] runs IH]; intros index Hpos Hlt.
  - reflexivity.
  - inversion Hpos as [|? ? Hlen Hrest]; subst. simpl in *.
    assert (0 <= runLength runs).
    { clear -Hrest. induction Hrest as [|[? ?] ? ? ? IH']; simpl in *; lia. }
    destruct (Z.leb_spec index len) as [Hle|Hgt]; [lia|].
    apply IH; [exact Hrest|lia].
Qed.

(** ** C1 *)

(** C1.  findPosition(N, index, delim, nodes), for a string index N of
    [nodes], returns normally.  Its node is that of the first run of
    nodes[N] at which the remaining offset (index minus the lengths of the
    runs before it) is at most the run's length, and its n is that
    remaining offset; an offset equal to the run's length therefore stays
    on that run.  When every run is shorter than the offset remaining at
    it, the result is the location with node null and n 0. *)
Theorem findPosition_first_fit nodes (N : nat) (index : Z) (delim : string) runs :
  nodes !! N = Some runs ->
  exists loc,
    findPosition N index delim nodes = Some loc /\
    Location.delim loc = delim /\
    ((exists (i : nat) nd len,
        runs !! i = Some (nd, len) /\
        (forall (j : nat) nd' len',
           (j < i)%nat -> runs !! j = Some (nd', len') ->
           len' < index - runLength (take j runs)) /\
        index - runLength (take i runs) <= len /\
        Location.node loc = Some nd /\
        Location.n loc = index - runLength (take i runs))
     \/
     ((forall (j : nat) nd' len',
         runs !! j = Some (nd', len') ->
         len' < index - runLength (take j runs)) /\
      Location.node loc = None /\ Location.n loc = 0)).
Proof.
  intros HN. unfold findPosition. rewrite HN.
  exists (scanRuns runs index delim).
  split; [reflexivity|]. split; [apply scanRuns_delim|].
  destruct (scanRuns_spec runs index delim) as
    [(i & nd & len & Hi & Hbefore & Hfit & Hres)|[Hall Hres]].
  - left. exists i, nd, len. rewrite Hres. unfold remaining in *. simpl. auto.
  - right. rewrite Hres. unfold remaining in *. simpl. auto.
Qed.

(** ** C7 *)

(** C7, as amended.  For a string index N whose run list is not empty and
    an offset k: findPosition returns normally; if k is at most the total
    run length, the lengths of the runs before the returned node plus the
    returned n give k again; and the null node is returned only for k
    greater than the total run length. *)
Theorem findPosition_round_trip nodes (N : nat) (k : Z) (delim : string) runs :
  nodes !! N = Some runs ->
  runs <> [] ->
  exists loc,
    findPosition N k delim nodes = Some loc /\
    (k <= runLength runs -> roundTrips runs k loc) /\
    (Location.node loc = None -> runLength runs < k /\ Location.n loc = 0).
Proof.
  intros HN Hne. unfold findPosition. rewrite HN.
  exists (scanRuns runs k delim). split; [reflexivity|].
  assert (Hnull : Location.node (scanRuns runs k delim) = None ->
                  runLength runs < k /\ Location.n (scanRuns runs k delim) = 0)
    by (apply scanRuns_null_past_end; exact Hne).
  split; [|exact Hnull].
  intros Hk.
  destruct (scanRuns_spec runs k delim) as
    [(i & nd & len & Hi & _ & _ & Hres)|[_ Hres]].
  - exists i, nd, len. rewrite Hres. unfold remaining. simpl.
    split; [exact Hi|]. split; [reflexivity|lia].
  - rewrite Hres in Hnull. destruct Hnull as [Hlt _]; [reflexivity|lia].
Qed.

End FindPositionFacts.

(** ** HTMLDocument.removeFromDocument and HTMLDocument.findMath *)

Section DocumentFacts.
Context {N T D : Type} {host : Host N T D}.
Implicit Types (doc : HTMLDocument.t N T D) (item : MathItem.t N T).

Import HTMLDocument.

Lemma isProcessed_setProcessed key b doc :
  isProcessed key (setProcessed key b doc) = b.
Proof. unfold isProcessed, setProcessed. simpl. by rewrite lookup_insert_eq. Qed.

Lemma setProcessed_twice key b doc :
  setProcessed key b (setProcessed key b doc) = setProcessed key b doc.
Proof. unfold setProcessed. simpl. by rewrite insert_insert_eq. Qed.

(** Removal after removal changes nothing, whatever the document. *)
Lemma removeFromDocument_idempotent restore restore' doc :
  removeFromDocument restore' (removeFromDocument restore doc)
  = removeFromDocument restore doc.
Proof.
  unfold removeFromDocument at 1.
  assert (Hflag : isProcessed "updateDocument" (removeFromDocument restore doc)
                  = false)
    by (unfold removeFromDocument; apply isProcessed_setProcessed).
  rewrite Hflag. unfold removeFromDocument. apply setProcessed_twice.
Qed.

Lemma rollBack_state restore item :
  MathItem.state (rollBack restore item)
  = if STATE_INSERTED <=? MathItem.state item then STATE_TYPESET
    else MathItem.state item.
Proof.
  unfold rollBack. rewrite Z.geb_leb.
  destruct (STATE_INSERTED <=? MathItem.state item);
    [apply mathItemState_state|reflexivity].
Qed.

(** ** C9 *)

(** C9.  On a document whose processed.updateDocument flag is set, the
    first removeFromDocument puts every math item whose state is at least
    INSERTED into state TYPESET, keeps the state of the others, and clears
    the flag; a second call then returns the document as the first call
    left it: same flags, same math list, same item states. *)
Theorem removeFromDocument_twice (restore restore' : bool) doc :
  isProcessed "updateDocument" doc = true ->
  let doc1 := removeFromDocument restore doc in
  isProcessed "updateDocument" doc1 = false /\
  math doc1 = map (rollBack restore) (math doc) /\
  Forall2 (fun old new =>
             MathItem.state new
             = if STATE_INSERTED <=? MathItem.state old then STATE_TYPESET
               else MathItem.state old)
          (math doc) (math doc1) /\
  removeFromDocument restore' doc1 = doc1.
Proof.
  intros Hflag doc1.
  assert (Hmath : math doc1 = map (rollBack restore) (math doc)).
  { subst doc1. unfold removeFromDocument. rewrite Hflag. reflexivity. }
  split; [subst doc1; unfold removeFromDocument; apply isProcessed_setProcessed|].
  split; [exact Hmath|]. split.
  - rewrite Hmath. apply Forall2_fmap_r, Forall_Forall2_diag, Forall_forall.
    intros item _. apply rollBack_state.
  - apply removeFromDocument_idempotent.
Qed.

(** ** C3 *)

(** C3.  After a findMath that returned, a second findMath (with any
    options) returns the very same document: the same math list, the
    processed flags as they were, and not one more call of an input jax's
    findMath or of the string extraction in the record of calls. *)
Theorem findMath_twice (options options' : OptionList) doc doc1 :
  findMath options doc = Some doc1 ->
  isProcessed "findMath" doc1 = true /\
  findMath options' doc1 = Some doc1 /\
  (forall doc2, findMath options' doc1 = Some doc2 ->
     math doc2 = math doc1 /\ calls doc2 = calls doc1).
Proof.
  intros Hfirst.
  assert (Hflag : isProcessed "findMath" doc1 = true).
  { unfold findMath in Hfirst.
    destruct (isProcessed "findMath" doc) eqn:Hdoc; simpl in Hfirst.
    - by inversion Hfirst; subst.
    - destruct (eachContainer _ _) as [doc'|]; simpl in Hfirst; [|discriminate].
      inversion Hfirst; subst. apply isProcessed_setProcessed. }
  assert (Hsecond : findMath options' doc1 = Some doc1)
    by (unfold findMath; rewrite Hflag; reflexivity).
  split; [exact Hflag|]. split; [exact Hsecond|].
  intros doc2 H2. rewrite Hsecond in H2. by inversion H2; subst.
Qed.

(** ** C8 *)

(** A jax that searches DOM nodes is given the container, its items
    carry the locations it reported, and the string cache is not touched. *)
Lemma searchWith_node (container : N) jax doc (cache : StringCache N T) :
  InputJax.processStrings jax = false ->
  searchWith container jax (doc, cache)
  = Some (setMath (merge (math doc)
                     (map (nodeItem jax)
                        (InputJax.findMath jax (inl container))))
            (record (FindInNode jax container) doc),
          cache).
Proof. intros Hmode. unfold searchWith. rewrite Hmode. reflexivity. Qed.

(** A jax that searches strings: the strings are extracted only when the
    cache is still empty. *)
Lemma searchWith_strings (container : N) jax doc (cache : StringCache N T) st :
  InputJax.processStrings jax = true ->
  searchWith container jax (doc, cache) = Some st ->
  let found := default (domStringsFind container) cache in
  exists list,
    mapM (fun math => mathItem math jax found.2)
         (InputJax.findMath jax (inr found.1)) = Some list /\
    st = (setMath (merge (math doc) list)
            (record (FindInStrings jax found.1)
               (if cache is Some _ then doc else record (ExtractStrings container) doc)),
          Some found).
Proof.
  intros Hmode Hrun found. unfold searchWith in Hrun. rewrite Hmode in Hrun.
  subst found. destruct cache as [[strings nodes]|]; simpl in *.
  - destruct (mapM _ _) as [list|] eqn:Hlist; simpl in Hrun; [|discriminate].
    exists list. by inversion Hrun.
  - destruct (domStringsFind container) as [strings nodes]; simpl in *.
    destruct (mapM _ _) as [list|] eqn:Hlist; simpl in Hrun; [|discriminate].
    exists list. by inversion Hrun.
Qed.

Lemma extractions_app (cs1 cs2 : list (Call N T)) :
  extractions (cs1 ++ cs2) = extractions cs1 ++ extractions cs2.
Proof. apply omap_app. Qed.

Lemma eachJax_cons (container : N) jax jaxes (st : t N T D * StringCache N T) :
  eachJax container (jax :: jaxes) st
  = searchWith container jax st ≫= eachJax container jaxes.
Proof. reflexivity. Qed.

Lemma eachContainer_cons (container : N) containers doc :
  eachContainer (container :: containers) doc
  = eachJax container (inputJax doc) (doc, None)
      ≫= fun st => eachContainer containers st.1.
Proof. reflexivity. Qed.

Lemma eachJax_calls (container : N) jaxes doc cache doc' cache' :
  cacheFor container cache ->
  eachJax container jaxes (doc, cache) = Some (doc', cache') ->
  inputJax doc' = inputJax doc /\ document doc' = document doc /\
  exists new, calls doc' = calls doc ++ new /\
              jaxCallsOk container jaxes cache new.
Proof.
  revert doc cache. induction jaxes as [|jax jaxes IH]; intros doc cache Hc Hrun.
  - simpl in Hrun. inversion Hrun; subst doc' cache'.
    do 2 (split; [reflexivity|]).
    exists []. split; [by rewrite app_nil_r|].
    split; [by destruct cache|].
    split; [intros ? ?; rewrite elem_of_nil; split; [tauto|]|].
    + intros (_ & Hin & _). by apply elem_of_nil in Hin.
    + intros ? ? Hin. by apply elem_of_nil in Hin.
  - rewrite eachJax_cons in Hrun.
    destruct (searchWith container jax (doc, cache)) as [[doc1 cache1]|] eqn:Hone;
      simpl in Hrun; [|discriminate].
    destruct (InputJax.processStrings jax) eqn:Hmode.
    + (* a jax on strings *)
      destruct (searchWith_strings _ _ _ _ _ Hmode Hone) as (list & _ & Hst).
      inversion Hst; subst doc1 cache1; clear Hst.
      assert (Hfound : default (domStringsFind container) cache
                       = domStringsFind container)
        by (destruct Hc as [->| ->]; reflexivity).
      rewrite Hfound in *.
      destruct (IH _ _ (or_intror eq_refl) Hrun) as (Hj & Hd & new & Hcalls & Hx & Hn & Hs).
      split; [rewrite Hj; by destruct cache|].
      split; [rewrite Hd; by destruct cache|].
      exists ((if cache is Some _ then [] else [ExtractStrings container])
              ++ [FindInStrings jax (domStringsFind container).1] ++ new).
      split.
      { rewrite Hcalls. destruct cache; simpl; by rewrite <- ?app_assoc. }
      split; [|split].
      * cbn [existsb]. rewrite Hmode, !extractions_app, Hx.
        by destruct cache.
      * intros jx c. rewrite !elem_of_app, list_elem_of_singleton, Hn, elem_of_cons.
        split.
        -- intros [Hin|[Heq|(-> & Hin & Hm)]].
           ++ destruct cache; [by apply elem_of_nil in Hin|].
              apply list_elem_of_singleton in Hin. discriminate.
           ++ discriminate.
           ++ auto.
        -- intros (-> & [->|Hin] & Hm); [congruence|]. right. right. auto.
      * intros jx strings. rewrite !elem_of_app, list_elem_of_singleton, elem_of_cons.
        intros [Hin|[Heq|Hin]].
        -- destruct cache; [by apply elem_of_nil in Hin|].
           apply list_elem_of_singleton in Hin. discriminate.
        -- inversion Heq; subst. auto.
        -- destruct (Hs _ _ Hin) as (? & ? & ?). auto.
    + (* a jax on DOM nodes *)
      rewrite (searchWith_node _ _ _ _ Hmode) in Hone.
      inversion Hone; subst doc1 cache1; clear Hone.
      destruct (IH _ _ Hc Hrun) as (Hj & Hd & new & Hcalls & Hx & Hn & Hs).
      split; [exact Hj|]. split; [exact Hd|].
      exists ([FindInNode jax container] ++ new).
      split; [rewrite Hcalls; simpl; by rewrite <- app_assoc|].
      split; [|split].
      * cbn [existsb]. rewrite Hmode, extractions_app, Hx. reflexivity.
      * intros jx c. simpl. rewrite elem_of_cons, Hn, elem_of_cons.
        split.
        -- intros [Heq|(-> & Hin & Hm)]; [inversion Heq; subst|]; auto.
        -- intros (-> & [->|Hin] & Hm); auto.
      * intros jx strings. simpl. rewrite elem_of_cons.
        intros [Heq|Hin]; [discriminate|].
        destruct (Hs _ _ Hin) as (? & ? & ?). rewrite elem_of_cons. auto.
Qed.

Lemma eachContainer_calls (containers : list N) doc doc' :
  eachContainer containers doc = Some doc' ->
  exists new,
    calls doc' = calls doc ++ new /\
    extractions new
      = (if existsb InputJax.processStrings (inputJax doc) then containers
         else []) /\
    (forall jax c, FindInNode jax c ∈ new <->
       c ∈ containers /\ jax ∈ inputJax doc /\
       InputJax.processStrings jax = false) /\
    (forall jax strings, FindInStrings jax strings ∈ new ->
       jax ∈ inputJax doc /\ InputJax.processStrings jax = true /\
       exists c, c ∈ containers /\ strings = (domStringsFind c).1).
Proof.
  revert doc. induction containers as [|c containers IH]; intros doc Hrun.
  - simpl in Hrun. inversion Hrun; subst. exists [].
    split; [by rewrite app_nil_r|]. split; [by destruct (existsb _ _)|].
    split.
    + intros ? ?. rewrite !elem_of_nil. tauto.
    + intros ? ? Hin. by apply elem_of_nil in Hin.
  - rewrite eachContainer_cons in Hrun.
    destruct (eachJax c (inputJax doc) (doc, None)) as [[doc1 cache1]|] eqn:Hone;
      simpl in Hrun; [|discriminate].
    destruct (eachJax_calls _ _ _ _ _ _ (or_introl eq_refl) Hone)
      as (Hj & _ & new1 & Hcalls1 & Hx1 & Hn1 & Hs1).
    destruct (IH _ Hrun) as (new2 & Hcalls2 & Hx2 & Hn2 & Hs2).
    rewrite Hj in *.
    exists (new1 ++ new2). split; [rewrite Hcalls2, Hcalls1; by rewrite app_assoc|].
    split; [|split].
    + rewrite extractions_app, Hx1, Hx2.
      by destruct (existsb _ _).
    + intros jax c'. rewrite elem_of_app, Hn1, Hn2, elem_of_cons. split.
      * intros [(-> & Hin & Hm)|(Hc' & Hin & Hm)]; auto.
      * intros ([->|Hc'] & Hin & Hm); [left|right]; auto.
    + intros jax strings. rewrite elem_of_app. intros [Hin|Hin].
      * destruct (Hs1 _ _ Hin) as (? & ? & ?). repeat split; try assumption.
        exists c. rewrite elem_of_cons. auto.
      * destruct (Hs2 _ _ Hin) as (? & ? & c' & ? & ?). repeat split; try assumption.
        exists c'. rewrite elem_of_cons. auto.
Qed.

(** C8.  In a findMath that finds the flag unset and returns, with
    [containers] the elements it goes through: the strings are extracted
    once for each of these containers if some input jax has processStrings
    true, and not at all otherwise; an input jax's findMath is given the
    container itself exactly when its processStrings is false, and the
    extracted strings of a container only when it is true; and one turn
    of the loop for a jax with processStrings false builds its items from
    the locations the jax reported and leaves the string cache as it
    was. *)
Theorem findMath_extracts_lazily (options : OptionList) doc doc1 :
  isProcessed "findMath" doc = false ->
  findMath options doc = Some doc1 ->
  let containers := getElements options (document doc) in
  (exists new,
     calls doc1 = calls doc ++ new /\
     extractions new
       = (if existsb InputJax.processStrings (inputJax doc) then containers
          else []) /\
     (forall jax c, FindInNode jax c ∈ new <->
        c ∈ containers /\ jax ∈ inputJax doc /\
        InputJax.processStrings jax = false) /\
     (forall jax strings, FindInStrings jax strings ∈ new ->
        jax ∈ inputJax doc /\ InputJax.processStrings jax = true /\
        exists c, c ∈ containers /\ strings = (domStringsFind c).1)) /\
  (forall (container : N) jax d (cache : StringCache N T),
     InputJax.processStrings jax = false ->
     searchWith container jax (d, cache)
     = Some (setMath (merge (math d)
                        (map (nodeItem jax)
                           (InputJax.findMath jax (inl container))))
               (record (FindInNode jax container) d),
             cache)) /\
  (forall jax (found : ProtoItem.t (N + T)),
     MathItem.start (nodeItem jax found) = ProtoItem.start found /\
     MathItem.end_ (nodeItem jax found) = ProtoItem.end_ found).
Proof.
  intros Hflag Hrun containers. split; [|split].
  - unfold findMath in Hrun. rewrite Hflag in Hrun. simpl in Hrun.
    destruct (eachContainer _ _) as [doc'|] eqn:Hloop; simpl in Hrun;
      [|discriminate].
    inversion Hrun; subst doc1; clear Hrun.
    destruct (eachContainer_calls _ _ _ Hloop) as (new & Hcalls & Hrest).
    exists new. split; [exact Hcalls|exact Hrest].
  - intros. by apply searchWith_node.
  - intros. split; reflexivity.
Qed.

End DocumentFacts.

(** ** BraketMethods and BraketItem *)

Section BraketFacts.
Context {engine : Engine}.
Implicit Types (p : TexParser.t) (top : StackItem.t) (mml : MmlNode).

Import BraketMethods.

(** Pushing a node onto a BraketItem: the item takes it in and stays. *)
Lemma Push_node_braket p top rest mml :
  TexParser.stack p = top :: rest ->
  StackItem.kind top = "braket" ->
  TexParser.Push (inl mml) p
  = TexParser.mk (TexParser.str p) (TexParser.i p)
      (StackItem.Push [TexParser.absorbed mml] top :: rest)
      (TexParser.journal p ++ [Pushed (inl mml)]).
Proof.
  intros Hst Hkind.
  unfold TexParser.Push, TexParser.stackPushOne, TexParser.log,
    TexParser.setStack, StackItem.isKind, BraketItem.kind.
  rewrite Hst, Hkind. reflexivity.
Qed.

Lemma Push_node_braket_mk (s : string) (i : nat) top rest journal mml :
  StackItem.kind top = "braket" ->
  TexParser.Push (inl mml) (TexParser.mk s i (top :: rest) journal)
  = TexParser.mk s i (StackItem.Push [TexParser.absorbed mml] top :: rest)
      (journal ++ [Pushed (inl mml)]).
Proof. intros Hkind. by apply Push_node_braket. Qed.

Lemma Push_journal x p :
  TexParser.journal (TexParser.Push x p) = TexParser.journal p ++ [Pushed x].
Proof. reflexivity. Qed.

Lemma Push_cursor x p :
  TexParser.i (TexParser.Push x p) = TexParser.i p /\
  TexParser.str (TexParser.Push x p) = TexParser.str p.
Proof. split; reflexivity. Qed.

(** The look-ahead for a second bar touches the position only. *)
Lemma doubleBar_frame p c :
  TexParser.stack (doubleBar p c).1 = TexParser.stack p /\
  TexParser.journal (doubleBar p c).1 = TexParser.journal p /\
  TexParser.str (doubleBar p c).1 = TexParser.str p /\
  ((doubleBar p c).2 = c \/ (doubleBar p c).2 = PARALLEL).
Proof.
  unfold doubleBar. destruct (String.eqb c "|"); [|simpl; auto].
  destruct (GetNext _ _) as [j next].
  destruct (String.eqb next "|"); simpl; auto.
Qed.

Lemma doubleBar_coalesces p (j : nat) :
  GetNext (TexParser.str p) (TexParser.i p) = (j, "|") ->
  doubleBar p "|" = (TexParser.setI (S j) (TexParser.setI j p), PARALLEL).
Proof. intros Hnext. unfold doubleBar. simpl. rewrite Hnext. reflexivity. Qed.

(** The fallback branch. *)
Lemma Bar_fallback_eq p name top rest :
  TexParser.stack p = top :: rest ->
  StackItem.kind top <> "braket" \/
  JS.ge (StackItem.getProperty "barcount" top)
        (StackItem.getProperty "barmax" top) = true ->
  Bar p name = Some (TexParser.Push (inl (plainBar (barChar name))) p).
Proof.
  intros Hst Hcond. unfold Bar, TexParser.Top. rewrite Hst. simpl.
  destruct Hcond as [Hkind|Hfull].
  - destruct (String.eqb_spec (StackItem.kind top) "braket"); [contradiction|].
    reflexivity.
  - rewrite Hfull, orb_true_r. reflexivity.
Qed.

(** The two accepting branches. *)
Lemma Bar_accepted_eq p name top rest :
  TexParser.stack p = top :: rest ->
  StackItem.kind top = "braket" ->
  JS.ge (StackItem.getProperty "barcount" top)
        (StackItem.getProperty "barmax" top) = false ->
  let p1 := (doubleBar p (barChar name)).1 in
  let c := (doubleBar p (barChar name)).2 in
  Bar p name =
  if JS.truthy (StackItem.getProperty "stretchy" top) then
    Some (TexParser.mk (TexParser.str p) (TexParser.i p1)
            (StackItem.mk (StackItem.kind top)
               (<["barcount" := JS.succ (StackItem.getProperty "barcount" top)]>
                  (StackItem.properties top))
               (StackItem.nodes top ++
                map TexParser.absorbed
                  [createNode "TeXAtom" [] (object [("texClass", AClass CLOSE)]);
                   createToken "mo" (object [("stretchy", ABool true);
                                             ("braketbar", ABool true)]) c;
                   createNode "TeXAtom" [] (object [("texClass", AClass OPEN)])])
             :: rest)
            (TexParser.journal p ++
             [Pushed (inl (createNode "TeXAtom" []
                             (object [("texClass", AClass CLOSE)])));
              PropertySet "barcount"
                (JS.succ (StackItem.getProperty "barcount" top));
              Pushed (inl (createToken "mo" (object [("stretchy", ABool true);
                                                     ("braketbar", ABool true)]) c));
              Pushed (inl (createNode "TeXAtom" []
                             (object [("texClass", AClass OPEN)])))]))
  else
    Some (TexParser.Push
            (inl (createToken "mo" (object [("stretchy", ABool false);
                                            ("braketbar", ABool true)]) c))
            p1).
Proof.
  intros Hst Hkind Hroom p1 c.
  destruct (doubleBar_frame p (barChar name)) as (Hst1 & Hj1 & Hs1 & _).
  fold p1 in Hst1, Hj1, Hs1. rewrite Hst in Hst1.
  unfold Bar, TexParser.Top. rewrite Hst.
  cbn [head mbind option_bind]. rewrite Hkind, Hroom, String.eqb_refl.
  cbn [negb orb].
  destruct (doubleBar p (barChar name)) as [q c'] eqn:Hdb.
  cbn [fst snd] in p1, c. subst p1 c.
  destruct (JS.truthy (StackItem.getProperty "stretchy" top)); cbn [negb];
    [|reflexivity].
  f_equal.
  rewrite (Push_node_braket q top rest _ Hst1 Hkind).
  unfold TexParser.setTopProperty, TexParser.Top, TexParser.log,
    TexParser.setStack.
  cbn [TexParser.stack head mbind option_bind
       TexParser.str TexParser.i TexParser.journal].
  rewrite Push_node_braket_mk by exact Hkind.
  rewrite Push_node_braket_mk by exact Hkind.
  rewrite Hj1, Hs1. unfold StackItem.Push, StackItem.setProperty,
    StackItem.getProperty.
  cbn [StackItem.kind StackItem.properties StackItem.nodes map].
  rewrite ?Hkind, <- !app_assoc. reflexivity.
Qed.

Lemma ge_same (count : Z) :
  JS.ge (Some (PNum (Int count))) (Some (PNum (Int count))) = true.
Proof. simpl. apply Z.leb_refl. Qed.

Lemma getProperty_setProperty key value item :
  StackItem.getProperty key (StackItem.setProperty key value item) = Some value.
Proof. unfold StackItem.getProperty, StackItem.setProperty. simpl.
  apply lookup_insert_eq. Qed.

Lemma getProperty_setProperty_ne key key' value item :
  key <> key' ->
  StackItem.getProperty key' (StackItem.setProperty key value item)
  = StackItem.getProperty key' item.
Proof. intros Hne. unfold StackItem.getProperty, StackItem.setProperty. simpl.
  by apply lookup_insert_ne. Qed.

(** The item that Braket makes. *)
Lemma Braket_item (open close : string) (stretchy : bool) (barmax : Number) :
  let item := StackItem.setProperties
                [("barmax", PNum barmax); ("barcount", PNum (Int 0));
                 ("open", PStr open); ("close", PStr close);
                 ("stretchy", PBool stretchy)]
                (StackItem.create "braket" []) in
  StackItem.kind item = "braket" /\
  StackItem.nodes item = [] /\
  StackItem.getProperty "barcount" item = Some (PNum (Int 0)) /\
  StackItem.getProperty "barmax" item = Some (PNum barmax) /\
  StackItem.getProperty "open" item = Some (PStr open) /\
  StackItem.getProperty "close" item = Some (PStr close) /\
  StackItem.getProperty "stretchy" item = Some (PBool stretchy).
Proof.
  cbn [StackItem.setProperties foldl fst snd].
  repeat split;
    repeat (first [ apply getProperty_setProperty
                  | rewrite getProperty_setProperty_ne by discriminate ]).
Qed.

(** ** C4 *)

(** C4, as amended.  When the top item is not a 'braket' item, or its
    barcount is at least its barmax, all that Bar does is one Push of an
    mo token with texClass ORD and stretchy false that carries the bar
    character: the same call in both cases.  Bar itself writes no
    property and does not move the position.  When the top item is a
    'braket' item, the stack keeps its items, their kinds and their
    properties; the top item has taken the token in.  What the Push does
    on a top item of another kind is that item's business and is not
    stated. *)
Theorem Bar_fallback_plain_token p name top rest :
  TexParser.stack p = top :: rest ->
  StackItem.kind top <> "braket" \/
  JS.ge (StackItem.getProperty "barcount" top)
        (StackItem.getProperty "barmax" top) = true ->
  let mml := createToken "mo"
               (object [("texClass", AClass ORD); ("stretchy", ABool false)])
               (if String.eqb name "|" then "|" else "∥") in
  exists p',
    Bar p name = Some p' /\
    p' = TexParser.Push (inl mml) p /\
    TexParser.journal p' = TexParser.journal p ++ [Pushed (inl mml)] /\
    TexParser.i p' = TexParser.i p /\
    TexParser.str p' = TexParser.str p /\
    (StackItem.kind top = "braket" ->
     TexParser.stack p'
     = StackItem.mk (StackItem.kind top) (StackItem.properties top)
         (StackItem.nodes top ++ [TexParser.absorbed mml]) :: rest).
Proof.
  intros Hst Hcond mml. exists (TexParser.Push (inl mml) p).
  split; [exact (Bar_fallback_eq p name top rest Hst Hcond)|].
  split; [reflexivity|]. split; [reflexivity|].
  split; [reflexivity|]. split; [reflexivity|].
  intros Hkind. rewrite (Push_node_braket p top rest mml Hst Hkind).
  reflexivity.
Qed.

(** ** C5 *)

(** C5.  On a 'braket' top item with barcount below barmax and stretchy
    true, Bar returns normally and does, in this order: Push of a TeXAtom
    with texClass CLOSE, barcount set to its value plus one, Push of the
    mo token with stretchy true and braketbar true, Push of a TeXAtom with
    texClass OPEN; nothing else.  The top item ends with barcount one
    higher, its other properties as before, and the three nodes taken
    in. *)
Theorem Bar_stretchy_three_items p name top rest (count : Z) :
  TexParser.stack p = top :: rest ->
  StackItem.kind top = "braket" ->
  StackItem.getProperty "barcount" top = Some (PNum (Int count)) ->
  JS.ge (StackItem.getProperty "barcount" top)
        (StackItem.getProperty "barmax" top) = false ->
  StackItem.getProperty "stretchy" top = Some (PBool true) ->
  let closeAtom := createNode "TeXAtom" [] (object [("texClass", AClass CLOSE)]) in
  let openAtom := createNode "TeXAtom" [] (object [("texClass", AClass OPEN)]) in
  exists p' c top',
    let bar := createToken "mo" (object [("stretchy", ABool true);
                                         ("braketbar", ABool true)]) c in
    Bar p name = Some p' /\
    (c = (if String.eqb name "|" then "|" else "∥") \/ c = "∥") /\
    TexParser.journal p'
    = TexParser.journal p ++
      [Pushed (inl closeAtom);
       PropertySet "barcount" (PNum (Int (count + 1)));
       Pushed (inl bar);
       Pushed (inl openAtom)] /\
    TexParser.stack p' = top' :: rest /\
    StackItem.kind top' = "braket" /\
    StackItem.getProperty "barcount" top' = Some (PNum (Int (count + 1))) /\
    (forall key, key <> "barcount" ->
       StackItem.getProperty key top' = StackItem.getProperty key top) /\
    StackItem.nodes top'
    = StackItem.nodes top ++ map TexParser.absorbed [closeAtom; bar; openAtom].
Proof.
  intros Hst Hkind Hcount Hroom Hstretchy closeAtom openAtom.
  pose proof (Bar_accepted_eq p name top rest Hst Hkind Hroom) as Hbar.
  cbv zeta in Hbar. rewrite Hstretchy, Hcount in Hbar.
  cbn [JS.truthy JS.succ JS.toNumber] in Hbar.
  destruct (doubleBar_frame p (barChar name)) as (_ & _ & _ & Hc).
  eexists _, (doubleBar p (barChar name)).2, _.
  split; [exact Hbar|]. split; [exact Hc|].
  split; [reflexivity|]. split; [reflexivity|].
  split; [exact Hkind|].
  split; [apply lookup_insert_eq|].
  split; [|reflexivity].
  intros key Hkey. unfold StackItem.getProperty. simpl.
  by apply lookup_insert_ne.
Qed.

(** ** C10 *)

(** C10, as amended.  Bar for '|' on a 'braket' top item with a numeric
    barcount below barmax, when the look-ahead returns '|' at position j
    (the parser's position itself when no blank is skipped): the parser
    ends one past j and exactly one mo token is pushed, with the text
    U+2225.  When the item's stretchy property is true this counts once:
    barcount is written once and ends one higher.  On the fallback path
    the position stays, the one token pushed is the single bar, and
    barcount is not written. *)
Theorem Bar_double_bar p top rest (j : nat) (count : Z) :
  TexParser.stack p = top :: rest ->
  StackItem.kind top = "braket" ->
  StackItem.getProperty "barcount" top = Some (PNum (Int count)) ->
  JS.ge (StackItem.getProperty "barcount" top)
        (StackItem.getProperty "barmax" top) = false ->
  GetNext (TexParser.str p) (TexParser.i p) = (j, "|") ->
  (exists p' new top',
     Bar p "|" = Some p' /\
     TexParser.i p' = S j /\
     TexParser.journal p' = TexParser.journal p ++ new /\
     pushedTokens new = [("mo", "∥")] /\
     TexParser.stack p' = top' :: rest /\
     (StackItem.getProperty "stretchy" top = Some (PBool true) ->
      propertyWrites "barcount" new = [PNum (Int (count + 1))] /\
      StackItem.getProperty "barcount" top' = Some (PNum (Int (count + 1))))) /\
  (forall q top' rest',
     TexParser.stack q = top' :: rest' ->
     StackItem.kind top' <> "braket" \/
     JS.ge (StackItem.getProperty "barcount" top')
           (StackItem.getProperty "barmax" top') = true ->
     exists q',
       Bar q "|" = Some q' /\
       TexParser.i q' = TexParser.i q /\
       pushedTokens (TexParser.journal q')
       = pushedTokens (TexParser.journal q) ++ [("mo", "|")] /\
       propertyWrites "barcount" (TexParser.journal q')
       = propertyWrites "barcount" (TexParser.journal q)).
Proof.
  intros Hst Hkind Hcount Hroom Hnext. split.
  - pose proof (Bar_accepted_eq p "|" top rest Hst Hkind Hroom) as Hbar.
    cbv zeta in Hbar. change (barChar "|") with "|" in Hbar.
    rewrite (doubleBar_coalesces p j Hnext) in Hbar. cbn [fst snd] in Hbar.
    destruct (JS.truthy (StackItem.getProperty "stretchy" top)) eqn:Hs.
    + rewrite Hcount in Hbar. cbn [JS.succ JS.toNumber] in Hbar.
      eexists _, _, _. split; [exact Hbar|]. split; [reflexivity|].
      split; [reflexivity|]. split; [reflexivity|]. split; [reflexivity|].
      intros _. split; [reflexivity|]. apply lookup_insert_eq.
    + rewrite (Push_node_braket_mk _ _ top rest _ _ Hkind) in Hbar
        || (unfold TexParser.setI in Hbar; rewrite Hst in Hbar;
            rewrite (Push_node_braket_mk _ _ top rest _ _ Hkind) in Hbar).
      eexists _, [_], _. split; [exact Hbar|]. split; [reflexivity|].
      split; [reflexivity|]. split; [reflexivity|]. split; [reflexivity|].
      intros Hstretchy. rewrite Hstretchy in Hs. discriminate.
  - intros q top' rest' Hq Hcond.
    eexists. split; [exact (Bar_fallback_eq q "|" top' rest' Hq Hcond)|].
    split; [reflexivity|]. rewrite Push_journal.
    unfold pushedTokens, propertyWrites. rewrite !omap_app.
    split; [reflexivity|]. simpl. by rewrite app_nil_r.
Qed.

(** ** C6 *)

(** C6.  When the item offered to a BraketItem is of kind 'close',
    checkItem answers with [[item], true], where item is one 'mml' item
    that wraps toMml() of the BraketItem, and leaves the BraketItem as it
    is.  With a truthy stretchy property toMml() is fenced(open, inner,
    close); otherwise it is an mrow with the three children open token,
    inner, close token, both tokens being mo tokens with fence true,
    stretchy false and symmetric true. *)
Theorem checkItem_close_finalizes (this item : StackItem.t) (open close : string) :
  StackItem.isKind "close" item = true ->
  StackItem.getProperty "open" this = Some (PStr open) ->
  StackItem.getProperty "close" this = Some (PStr close) ->
  let inner := superToMml this in
  BraketItem.checkItem this item
  = Some (this,
          (Some [inr (StackItem.create "mml" [BraketItem.toMml this])], true)) /\
  StackItem.kind (StackItem.create "mml" [BraketItem.toMml this]) = "mml" /\
  StackItem.nodes (StackItem.create "mml" [BraketItem.toMml this])
  = [BraketItem.toMml this] /\
  (if JS.truthy (StackItem.getProperty "stretchy" this)
   then BraketItem.toMml this = fenced open inner close
   else exists attrs mrowAttrs,
       BraketItem.toMml this
       = createNode "mrow"
           [createToken "mo" attrs open; inner; createToken "mo" attrs close]
           mrowAttrs /\
       attrs !! "fence" = Some (ABool true) /\
       attrs !! "stretchy" = Some (ABool false) /\
       attrs !! "symmetric" = Some (ABool true)).
Proof.
  intros Hclose Hopen Hcl inner.
  split; [unfold BraketItem.checkItem; rewrite Hclose; reflexivity|].
  split; [reflexivity|]. split; [reflexivity|].
  unfold BraketItem.toMml. rewrite Hopen, Hcl. cbn [JS.asString].
  destruct (JS.truthy (StackItem.getProperty "stretchy" this)); [reflexivity|].
  eexists _, _. split; [reflexivity|].
  split; [|split]; vm_compute; reflexivity.
Qed.

(** ** C2 *)

(** C2, as amended.  The item that Braket pushes is a 'braket' item that
    carries barmax as given and barcount 0.  On a 'braket' top item whose
    barcount is a number, Bar returns normally and leaves a 'braket' item
    with the same barmax on top.  If barcount is at least barmax (as it is
    when the two are equal), Bar only pushes the ordinary token of the
    fallback, so barcount stays.  Otherwise the bar is accepted and, when
    the item's stretchy property is true, barcount ends one higher. *)
Theorem braket_barcount_invariant p name (open close : string)
    (stretchy : bool) (barmax : Number) top rest (count : Z) :
  TexParser.stack p = top :: rest ->
  StackItem.kind top = "braket" ->
  StackItem.getProperty "barcount" top = Some (PNum (Int count)) ->
  (exists item,
     Braket p name open close stretchy barmax
     = TexParser.Push (inr item) (TexParser.setI (S (TexParser.i p)) p) /\
     StackItem.kind item = "braket" /\
     StackItem.getProperty "barcount" item = Some (PNum (Int 0)) /\
     StackItem.getProperty "barmax" item = Some (PNum barmax)) /\
  (StackItem.getProperty "barmax" top = Some (PNum (Int count)) ->
   JS.ge (StackItem.getProperty "barcount" top)
         (StackItem.getProperty "barmax" top) = true) /\
  (exists p' top',
     Bar p name = Some p' /\
     TexParser.stack p' = top' :: rest /\
     StackItem.kind top' = "braket" /\
     StackItem.getProperty "barmax" top' = StackItem.getProperty "barmax" top /\
     if JS.ge (StackItem.getProperty "barcount" top)
              (StackItem.getProperty "barmax" top)
     then
       p' = TexParser.Push (inl (plainBar (barChar name))) p /\
       StackItem.getProperty "barcount" top' = Some (PNum (Int count))
     else
       StackItem.getProperty "stretchy" top = Some (PBool true) ->
       StackItem.getProperty "barcount" top' = Some (PNum (Int (count + 1)))).
Proof.
  intros Hst Hkind Hcount. split; [|split].
  - eexists. split; [reflexivity|].
    destruct (Braket_item open close stretchy barmax) as (Hk & _ & Hc & Hm & _).
    auto.
  - intros Hmax. rewrite Hcount, Hmax. apply ge_same.
  - destruct (JS.ge _ _) eqn:Hroom.
    + eexists _, _.
      split; [exact (Bar_fallback_eq p name top rest Hst (or_intror Hroom))|].
      rewrite (Push_node_braket p top rest _ Hst Hkind).
      split; [reflexivity|]. split; [exact Hkind|]. split; [reflexivity|].
      split; [reflexivity|exact Hcount].
    + pose proof (Bar_accepted_eq p name top rest Hst Hkind Hroom) as Hbar.
      cbv zeta in Hbar.
      destruct (doubleBar_frame p (barChar name)) as (Hst1 & _).
      rewrite Hst in Hst1.
      destruct (JS.truthy (StackItem.getProperty "stretchy" top)) eqn:Hs.
      * rewrite Hcount in Hbar. cbn [JS.succ JS.toNumber] in Hbar.
        eexists _, _. split; [exact Hbar|]. split; [reflexivity|].
        split; [exact Hkind|].
        split; [unfold StackItem.getProperty; simpl; by apply lookup_insert_ne|].
        intros _. apply lookup_insert_eq.
      * rewrite (Push_node_braket _ top rest _ Hst1 Hkind) in Hbar.
        eexists _, _. split; [exact Hbar|]. split; [reflexivity|].
        split; [exact Hkind|]. split; [reflexivity|].
        intros Hstretchy. rewrite Hstretchy in Hs. discriminate.
Qed.

End BraketFacts.

(** ** Concrete runs of findPosition *)

Section FindPositionExamples.

Import Sample.

Example findPosition_inside_first :
  findPosition 0 2 "$" twoRuns = Some (Location.mk (Some 1%nat) 2 "$").
Proof. reflexivity. Qed.

(** An offset on the boundary stays on the run that ends there. *)
Example findPosition_on_boundary :
  findPosition 0 3 "$" twoRuns = Some (Location.mk (Some 1%nat) 3 "$").
Proof. reflexivity. Qed.

Example findPosition_end_of_string :
  findPosition 0 7 "$" twoRuns = Some (Location.mk (Some 2%nat) 4 "$").
Proof. reflexivity. Qed.

Example findPosition_one_past_end :
  findPosition 0 8 "$" twoRuns = Some (Location.mk None 0 "$").
Proof. reflexivity. Qed.

(** No string 1: the loop header throws. *)
Example findPosition_no_such_string :
  findPosition 1 0 "$" twoRuns = None.
Proof. reflexivity. Qed.

Lemma findPosition_first_fit_witness :
  exists loc,
    findPosition 0 3 "$" twoRuns = Some loc /\
    Location.delim loc = "$" /\
    ((exists (i : nat) nd len,
        [(1%nat, 3); (2%nat, 4)] !! i = Some (nd, len) /\
        (forall (j : nat) nd' len',
           (j < i)%nat -> [(1%nat, 3); (2%nat, 4)] !! j = Some (nd', len') ->
           len' < 3 - runLength (take j [(1%nat, 3); (2%nat, 4)])) /\
        3 - runLength (take i [(1%nat, 3); (2%nat, 4)]) <= len /\
        Location.node loc = Some nd /\
        Location.n loc = 3 - runLength (take i [(1%nat, 3); (2%nat, 4)]))
     \/
     ((forall (j : nat) nd' len',
         [(1%nat, 3); (2%nat, 4)] !! j = Some (nd', len') ->
         len' < 3 - runLength (take j [(1%nat, 3); (2%nat, 4)])) /\
      Location.node loc = None /\ Location.n loc = 0)).
Proof.
  apply (findPosition_first_fit twoRuns 0 3 "$" [(1%nat, 3); (2%nat, 4)]).
  reflexivity.
Defined.

Lemma findPosition_round_trip_witness :
  exists loc,
    findPosition 0 7 "$" twoRuns = Some loc /\
    (7 <= runLength [(1%nat, 3); (2%nat, 4)] ->
     roundTrips [(1%nat, 3); (2%nat, 4)] 7 loc) /\
    (Location.node loc = None ->
     runLength [(1%nat, 3); (2%nat, 4)] < 7 /\ Location.n loc = 0).
Proof.
  apply (findPosition_round_trip twoRuns 0 7 "$" [(1%nat, 3); (2%nat, 4)]).
  - reflexivity.
  - discriminate.
Defined.

(** C7 as stated fails for a string with no runs: offset 0 is within
    [0, total length], yet the null node comes back and nothing
    round-trips. *)
Lemma findPosition_round_trip_fails_without_runs :
  exists loc : Location.t nat,
    findPosition 0 0 "$" [[]] = Some loc /\
    0 <= 0 <= runLength ([] : NodeList nat) /\
    Location.node loc = None /\
    ~ roundTrips [] 0 loc.
Proof.
  exists (Location.mk None 0 "$").
  split; [reflexivity|]. split; [simpl; lia|]. split; [reflexivity|].
  intros (i & nd & len & Hi & _). destruct i; discriminate.
Qed.

End FindPositionExamples.

(** ** Concrete runs of the document methods *)

Section DocumentExamples.

Import Sample HTMLDocument.

Local Existing Instance Sample.host.

(** Elements 5 and 7 searched with a string jax and a DOM jax: the
    strings of each element are extracted once, before the first jax that
    needs them. *)
Example findMath_calls :
  calls <$> findMath [5%nat; 7%nat] (newDocument [texJax; mmlJax] [] ∅)
  = Some [ExtractStrings 5%nat; FindInStrings texJax ["$x$"];
          FindInNode mmlJax 5%nat;
          ExtractStrings 7%nat; FindInStrings texJax ["$x$"];
          FindInNode mmlJax 7%nat].
Proof. vm_compute. reflexivity. Qed.

(** With only the DOM jax nothing is extracted. *)
Example findMath_calls_node_only :
  calls <$> findMath [5%nat; 7%nat] (newDocument [mmlJax] [] ∅)
  = Some [FindInNode mmlJax 5%nat; FindInNode mmlJax 7%nat].
Proof. vm_compute. reflexivity. Qed.

(** The string jax's offsets 0 and 3 become positions in the text node. *)
Example findMath_positions :
  map (fun item => (MathItem.start item, MathItem.end_ item))
    <$> (math <$> findMath [5%nat] (newDocument [texJax] [] ∅))
  = Some [(Location.mk (Some (inr 5%nat)) 0 "$",
           Location.mk (Some (inr 5%nat)) 3 "$")].
Proof. vm_compute. reflexivity. Qed.

Lemma findMath_twice_witness :
  let doc := newDocument [texJax; mmlJax] [] ∅ in
  exists doc1,
    findMath [5%nat; 7%nat] doc = Some doc1 /\
    isProcessed "findMath" doc1 = true /\
    findMath [9%nat] doc1 = Some doc1.
Proof.
  intros doc.
  pose (doc1 := default doc (findMath [5%nat; 7%nat] doc)).
  assert (Hfirst : findMath [5%nat; 7%nat] doc = Some doc1)
    by (vm_compute; reflexivity).
  exists doc1. split; [exact Hfirst|].
  destruct (findMath_twice (host := Sample.host) [5%nat; 7%nat] [9%nat]
              doc doc1 Hfirst)
    as (Hflag & Hsecond & _).
  split; [exact Hflag|exact Hsecond].
Defined.

Lemma findMath_extracts_lazily_witness :
  let doc := newDocument [mmlJax; texJax; texJax] [] ∅ in
  exists doc1 new,
    findMath [5%nat; 7%nat] doc = Some doc1 /\
    calls doc1 = calls doc ++ new /\
    extractions new = [5%nat; 7%nat].
Proof.
  intros doc.
  pose (doc1 := default doc (findMath [5%nat; 7%nat] doc)).
  assert (Hrun : findMath [5%nat; 7%nat] doc = Some doc1)
    by (vm_compute; reflexivity).
  destruct (findMath_extracts_lazily (host := Sample.host) [5%nat; 7%nat]
              doc doc1 eq_refl Hrun)
    as ((new & Hcalls & Hx & _) & _).
  exists doc1, new. split; [exact Hrun|]. split; [exact Hcalls|exact Hx].
Defined.

Example removeFromDocument_states :
  map MathItem.state
    (math (removeFromDocument false
             (newDocument [texJax] renderedItems {["updateDocument" := true]})))
  = [2; 1].
Proof. vm_compute. reflexivity. Qed.

(** Without the flag the first call leaves the items alone. *)
Example removeFromDocument_unrendered :
  map MathItem.state
    (math (removeFromDocument false (newDocument [texJax] renderedItems ∅)))
  = [3; 1].
Proof. vm_compute. reflexivity. Qed.

Lemma removeFromDocument_twice_witness :
  let doc := newDocument [texJax] renderedItems {["updateDocument" := true]} in
  let doc1 := removeFromDocument true doc in
  isProcessed "updateDocument" doc1 = false /\
  math doc1 = map (rollBack true) (math doc) /\
  Forall2 (fun old new =>
             MathItem.state new
             = if STATE_INSERTED <=? MathItem.state old then STATE_TYPESET
               else MathItem.state old)
          (math doc) (math doc1) /\
  removeFromDocument false doc1 = doc1.
Proof.
  intros doc.
  apply (removeFromDocument_twice (host := Sample.host) true false doc).
  reflexivity.
Defined.

End DocumentExamples.

(** ** Concrete runs of the braket handlers *)

Section BraketExamples.

Import Sample BraketMethods.

Local Existing Instance Sample.engine.

(** [\Set{x|y|z}]-like run with barmax 1: the first bar is the stretchy
    delimiter, the second one the ordinary token. *)
Example Bar_then_Bar :
  (TexParser.journal
     <$> (Bar (Braket (parser "{x|y|z}" 0 [start]) "\Set" "{" "}" true (Int 1)) "|"
          ≫= fun p => Bar p "|"))
  = Some
      [Pushed (inr (braketItem true 0 (Int 1)));
       Pushed (inl (createNode "TeXAtom" [] (object [("texClass", AClass CLOSE)])));
       PropertySet "barcount" (PNum (Int 1));
       Pushed (inl (createToken "mo" (object [("stretchy", ABool true);
                                              ("braketbar", ABool true)]) "|"));
       Pushed (inl (createNode "TeXAtom" [] (object [("texClass", AClass OPEN)])));
       Pushed (inl (createToken "mo" (object [("texClass", AClass ORD);
                                              ("stretchy", ABool false)]) "|"))].
Proof. vm_compute. reflexivity. Qed.

(** C2 as stated fails on a 'braket' item that is not stretchy: with
    barcount 0 and barmax 1 the bar is accepted (the token carries
    braketbar, not the ORD class of the fallback) and barcount is still 0
    afterwards, so the next bar is accepted as well. *)
Lemma Bar_plain_braket_keeps_barcount :
  let p := parser "{x|y|z}" 3 [braketItem false 0 (Int 1); start] in
  let accepted := createToken "mo" (object [("stretchy", ABool false);
                                            ("braketbar", ABool true)]) "|" in
  (TexParser.journal <$> Bar p "|") = Some [Pushed (inl accepted)] /\
  ((Bar p "|" ≫= TexParser.Top) ≫= StackItem.getProperty "barcount")
  = Some (PNum (Int 0)) /\
  (TexParser.journal <$> (Bar p "|" ≫= fun p' => Bar p' "|"))
  = Some [Pushed (inl accepted); Pushed (inl accepted)] /\
  (((Bar p "|" ≫= fun p' => Bar p' "|") ≫= TexParser.Top)
     ≫= StackItem.getProperty "barcount")
  = Some (PNum (Int 0)).
Proof. repeat split; vm_compute; reflexivity. Qed.

Lemma braket_barcount_invariant_witness :
  let top := braketItem true 0 (Int 1) in
  let p := parser "{x|y|z}" 3 [top; start] in
  exists p' top',
    Bar p "|" = Some p' /\
    TexParser.stack p' = [top'; start] /\
    StackItem.getProperty "barcount" top' = Some (PNum (Int 1)).
Proof.
  intros top p.
  destruct (braket_barcount_invariant (engine := Sample.engine) p "|" "{" "}"
              true (Int 1) top [start] 0 eq_refl eq_refl eq_refl)
    as (_ & _ & p' & top' & Hbar & Hst & _ & _ & Hcount).
  exists p', top'. split; [exact Hbar|]. split; [exact Hst|].
  exact (Hcount eq_refl).
Defined.

Lemma Bar_fallback_plain_token_witness :
  let bar := createToken "mo"
               (object [("texClass", AClass ORD); ("stretchy", ABool false)])
               "|" in
  (exists p',
     Bar (parser "{x|y|z}" 5 [braketItem true 1 (Int 1); start]) "|" = Some p' /\
     TexParser.journal p' = [Pushed (inl bar)] /\
     TexParser.i p' = 5%nat /\
     TexParser.stack p'
     = [StackItem.mk (StackItem.kind (braketItem true 1 (Int 1)))
          (StackItem.properties (braketItem true 1 (Int 1)))
          (StackItem.nodes (braketItem true 1 (Int 1))
           ++ [TexParser.absorbed (engine := Sample.engine) bar]);
        start]) /\
  (exists p',
     Bar (parser "|x|" 1 [start]) "|" = Some p' /\
     TexParser.journal p' = [Pushed (inl bar)] /\
     TexParser.i p' = 1%nat).
Proof.
  intros bar. split.
  - destruct (Bar_fallback_plain_token (engine := Sample.engine)
                (parser "{x|y|z}" 5 [braketItem true 1 (Int 1); start]) "|"
                (braketItem true 1 (Int 1)) [start] eq_refl (or_intror eq_refl))
      as (p' & Hbar & _ & Hjournal & Hi & _ & Hstack).
    exists p'. split; [exact Hbar|]. split; [exact Hjournal|].
    split; [exact Hi|]. exact (Hstack eq_refl).
  - assert (Hkind : StackItem.kind start <> "braket") by discriminate.
    destruct (Bar_fallback_plain_token (engine := Sample.engine)
                (parser "|x|" 1 [start]) "|" start [] eq_refl
                (or_introl Hkind))
      as (p' & Hbar & _ & Hjournal & Hi & _).
    exists p'. split; [exact Hbar|]. split; [exact Hjournal|exact Hi].
Defined.

(** C4 as stated fails on a top item of another kind that closes when it
    is offered a node: the top item is not a 'braket' item, Bar pushes the
    ordinary token, and the 'sup' item is gone from the stack afterwards,
    its msup taken in by the item below. *)
Lemma Bar_fallback_closes_other_frame :
  let p := parser "x^|" 3 [SampleClosing.supItem; start] in
  let bar := createToken "mo"
               (object [("texClass", AClass ORD); ("stretchy", ABool false)])
               "|" in
  StackItem.kind SampleClosing.supItem <> "braket" /\
  map StackItem.kind (TexParser.stack p) = ["sup"; "start"] /\
  (TexParser.journal <$> Bar (engine := SampleClosing.engine) p "|")
  = Some [Pushed (inl bar)] /\
  (TexParser.stack <$> Bar (engine := SampleClosing.engine) p "|")
  = Some [StackItem.mk "start" ∅
            [createNode "msup" [createToken "mi" ∅ "x"; bar] ∅]].
Proof.
  split; [discriminate|]. split; [reflexivity|].
  split; vm_compute; reflexivity.
Qed.

Lemma Bar_stretchy_three_items_witness :
  let top := braketItem true 0 (Int 1) in
  let p := parser "{x|y|z}" 3 [top; start] in
  exists p' c,
    Bar p "|" = Some p' /\
    TexParser.journal p'
    = [Pushed (inl (createNode "TeXAtom" [] (object [("texClass", AClass CLOSE)])));
       PropertySet "barcount" (PNum (Int 1));
       Pushed (inl (createToken "mo" (object [("stretchy", ABool true);
                                              ("braketbar", ABool true)]) c));
       Pushed (inl (createNode "TeXAtom" [] (object [("texClass", AClass OPEN)])))].
Proof.
  intros top p.
  destruct (Bar_stretchy_three_items (engine := Sample.engine) p "|" top [start] 0
              eq_refl eq_refl eq_refl eq_refl eq_refl)
    as (p' & c & top' & Hbar & _ & Hjournal & _).
  exists p', c. split; [exact Hbar|exact Hjournal].
Defined.

Lemma Bar_double_bar_witness :
  let p := parser "{x||y}" 3 [braketItem true 0 (Int 1); start] in
  exists p' new top',
    Bar p "|" = Some p' /\
    TexParser.i p' = 4%nat /\
    TexParser.journal p' = new /\
    pushedTokens new = [("mo", "∥")] /\
    TexParser.stack p' = [top'; start] /\
    StackItem.getProperty "barcount" top' = Some (PNum (Int 1)).
Proof.
  intros p.
  destruct (Bar_double_bar (engine := Sample.engine) p
              (braketItem true 0 (Int 1)) [start] 3 0
              eq_refl eq_refl eq_refl eq_refl eq_refl)
    as ((p' & new & top' & Hbar & Hi & Hjournal & Htokens & Hst & Hcount) & _).
  exists p', new, top'. split; [exact Hbar|]. split; [exact Hi|].
  split; [exact Hjournal|]. split; [exact Htokens|]. split; [exact Hst|].
  exact (proj2 (Hcount eq_refl)).
Defined.

(** C10 as stated fails on a 'braket' item that is not stretchy: the two
    bars are taken as one U+2225 token and the position moves on by one,
    but the bar is not counted at all; barcount is 0 before and after and
    is never written. *)
Lemma Bar_double_bar_plain_frame_not_counted :
  let p := parser "{x||y}" 3 [braketItem false 0 (Int 1); start] in
  (TexParser.i <$> Bar p "|") = Some 4%nat /\
  (TexParser.journal <$> Bar p "|")
  = Some [Pushed (inl (createToken "mo" (object [("stretchy", ABool false);
                                                 ("braketbar", ABool true)])
                         "∥"))] /\
  (propertyWrites "barcount" <$> (TexParser.journal <$> Bar p "|")) = Some [] /\
  ((Bar p "|" ≫= TexParser.Top) ≫= StackItem.getProperty "barcount")
  = Some (PNum (Int 0)).
Proof. repeat split; vm_compute; reflexivity. Qed.

Lemma checkItem_close_finalizes_witness :
  let this := StackItem.Push [createToken "mi" ∅ "x"] (braketItem false 0 (Int 1)) in
  BraketItem.checkItem this (StackItem.create "close" [])
  = Some (this,
          (Some [inr (StackItem.create "mml" [BraketItem.toMml this])], true)).
Proof.
  intros this.
  exact (proj1 (checkItem_close_finalizes (engine := Sample.engine) this (StackItem.create "close" [])
                  "{" "}" eq_refl eq_refl eq_refl)).
Defined.

(** The non-stretchy group made at the close of [\set{x}]. *)
Example toMml_plain :
  BraketItem.toMml
    (StackItem.Push [createToken "mi" ∅ "x"] (braketItem false 0 (Int 1)))
  = createNode "mrow"
      [createToken "mo" (object [("fence", ABool true); ("stretchy", ABool false);
                                 ("symmetric", ABool true);
                                 ("texClass", AClass OPEN)]) "{";
       createToken "mi" ∅ "x";
       createToken "mo" (object [("fence", ABool true); ("stretchy", ABool false);
                                 ("symmetric", ABool true);
                                 ("texClass", AClass OPEN)]) "}"]
      (object [("open", AStr "{"); ("close", AStr "}");
               ("texClass", AClass INNER)]).
Proof. vm_compute. reflexivity. Qed.

End BraketExamples.

(* ================================================================== *)
(** * Part III: further properties of the same code *)
(* ================================================================== *)

(** ** findPosition and mathItem *)

Section FindPositionMore.
Context {Node : Type}.
Implicit Types (runs : NodeList Node) (nodes : HTMLNodeArray Node).

Lemma runLength_take_S runs (i : nat) (nd : Node) len :
  runs !! i = Some (nd, len) ->
  runLength (take (S i) runs) = runLength (take i runs) + len.
Proof.
  intros Hi. rewrite (take_S_r _ _ _ Hi), runLength_app. simpl. lia.
Qed.

(** Where a successful scan stops, and what the offset it returns is. *)
Lemma scanRuns_found runs index delim (nd : Node) :
  Location.node (scanRuns runs index delim) = Some nd ->
  exists (i : nat) len,
    runs !! i = Some (nd, len) /\
    scanRuns runs index delim
    = Location.mk (Some nd) (index - runLength (take i runs)) delim /\
    index - runLength (take i runs) <= len /\
    (0 <= index -> 0 <= index - runLength (take i runs)) /\
    ((0 < i)%nat -> 0 < index - runLength (take i runs)).
Proof.
  intros Hnode.
  destruct (scanRuns_spec runs index delim) as
    [(i & nd' & len & Hi & Hbefore & Hfit & Hres)|[_ Hres]].
  - rewrite Hres in Hnode. simpl in Hnode. inversion Hnode; subst nd'.
    exists i, len. unfold remaining in *.
    split; [exact Hi|]. split; [exact Hres|]. split; [exact Hfit|].
    assert (Hlater : (0 < i)%nat -> 0 < index - runLength (take i runs)).
    { intros Hpos. destruct i as [|j]; [lia|].
      destruct (lookup_lt_is_Some_2 runs j) as [[nd0 len0] Hj].
      { apply lookup_lt_Some in Hi. lia. }
      pose proof (Hbefore j nd0 len0 ltac:(lia) Hj) as Hover.
      rewrite (runLength_take_S runs j nd0 len0 Hj). lia. }
    split; [|exact Hlater].
    intros Hindex. destruct i as [|j]; [simpl; lia|].
    specialize (Hlater ltac:(lia)). lia.
  - rewrite Hres in Hnode. discriminate.
Qed.

(** The scan is monotone in the offset. *)
Lemma scanRuns_monotone runs (k1 k2 : Z) (d1 d2 : string) :
  k1 <= k2 ->
  Location.node (scanRuns runs k2 d2) <> None ->
  exists (i1 i2 : nat) nd1 len1 nd2 len2,
    runs !! i1 = Some (nd1, len1) /\
    runs !! i2 = Some (nd2, len2) /\
    scanRuns runs k1 d1
    = Location.mk (Some nd1) (k1 - runLength (take i1 runs)) d1 /\
    scanRuns runs k2 d2
    = Location.mk (Some nd2) (k2 - runLength (take i2 runs)) d2 /\
    (i1 <= i2)%nat.
Proof.
  revert k1 k2. induction runs as [|[nd len] runs IH]; intros k1 k2 Hle Hfound.
  - simpl in Hfound. congruence.
  - simpl in *. destruct (Z.leb_spec k2 len) as [H2|H2].
    + destruct (Z.leb_spec k1 len) as [H1|H1]; [|lia].
      exists 0%nat, 0%nat, nd, len, nd, len. simpl.
      repeat split; try reflexivity; f_equal; lia.
    + destruct (Z.leb_spec k1 len) as [H1|H1].
      * destruct (Location.node (scanRuns runs (k2 - len) d2)) as [nd2|] eqn:Hn;
          [|congruence].
        destruct (scanRuns_found runs (k2 - len) d2 nd2 Hn)
          as (i2 & len2 & Hi2 & Hres2 & _).
        exists 0%nat, (S i2), nd, len, nd2, len2. simpl.
        split; [reflexivity|]. split; [exact Hi2|].
        split; [f_equal; lia|]. split; [|lia].
        rewrite Hres2. f_equal. lia.
      * destruct (IH (k1 - len) (k2 - len) ltac:(lia) Hfound)
          as (i1 & i2 & nd1 & len1 & nd2 & len2 & Hi1 & Hi2 & Hr1 & Hr2 & Hi).
        exists (S i1), (S i2), nd1, len1, nd2, len2. simpl.
        split; [exact Hi1|]. split; [exact Hi2|].
        split; [rewrite Hr1; f_equal; lia|].
        split; [rewrite Hr2; f_equal; lia|lia].
Qed.

(** Runs after the one found play no part. *)
Lemma scanRuns_app_found runs more index delim :
  Location.node (scanRuns runs index delim) <> None ->
  scanRuns (runs ++ more) index delim = scanRuns runs index delim.
Proof.
  revert index. induction runs as [|[nd len] runs IH]; intros index Hfound.
  - simpl in Hfound. congruence.
  - simpl in *. destruct (index <=? len); [reflexivity|]. by apply IH.
Qed.

(** X1.  With start offset k1 at most end offset k2 in the same string:
    when the end is located on a node, the start is located on a node as
    well, on the same run or an earlier one, and on the same run its
    offset is not the larger one. *)
Theorem findPosition_monotone nodes (N : nat) (k1 k2 : Z) (d1 d2 : string)
    runs loc2 :
  nodes !! N = Some runs ->
  k1 <= k2 ->
  findPosition N k2 d2 nodes = Some loc2 ->
  Location.node loc2 <> None ->
  exists loc1 (i1 i2 : nat) nd1 len1 nd2 len2,
    findPosition N k1 d1 nodes = Some loc1 /\
    runs !! i1 = Some (nd1, len1) /\ runs !! i2 = Some (nd2, len2) /\
    loc1 = Location.mk (Some nd1) (k1 - runLength (take i1 runs)) d1 /\
    loc2 = Location.mk (Some nd2) (k2 - runLength (take i2 runs)) d2 /\
    (i1 <= i2)%nat /\
    (i1 = i2 -> Location.n loc1 <= Location.n loc2).
Proof.
  intros HN Hle H2 Hfound. unfold findPosition in *. rewrite HN in *.
  inversion H2; subst loc2; clear H2.
  destruct (scanRuns_monotone runs k1 k2 d1 d2 Hle Hfound)
    as (i1 & i2 & nd1 & len1 & nd2 & len2 & Hi1 & Hi2 & Hr1 & Hr2 & Hi).
  exists (scanRuns runs k1 d1), i1, i2, nd1, len1, nd2, len2.
  split; [reflexivity|]. split; [exact Hi1|]. split; [exact Hi2|].
  split; [exact Hr1|]. split; [exact Hr2|]. split; [exact Hi|].
  intros ->. rewrite Hr1, Hr2. simpl. lia.
Qed.

(** X2.  A location with a node has an offset that is at most the length
    of the node's run; it is not negative when the offset asked for is
    not; and on any run but the first it is at least 1, since an offset
    on the border of two runs stays with the earlier run. *)
Theorem findPosition_offset_in_run nodes (N : nat) (index : Z) (delim : string)
    runs loc (nd : Node) :
  nodes !! N = Some runs ->
  findPosition N index delim nodes = Some loc ->
  Location.node loc = Some nd ->
  exists (i : nat) len,
    runs !! i = Some (nd, len) /\
    Location.n loc = index - runLength (take i runs) /\
    Location.n loc <= len /\
    (0 <= index -> 0 <= Location.n loc) /\
    ((0 < i)%nat -> 1 <= Location.n loc).
Proof.
  intros HN Hrun Hnode. unfold findPosition in Hrun. rewrite HN in Hrun.
  inversion Hrun; subst loc; clear Hrun.
  destruct (scanRuns_found runs index delim nd Hnode)
    as (i & len & Hi & Hres & Hfit & Hpos & Hlater).
  exists i, len. rewrite Hres. simpl.
  split; [exact Hi|]. split; [reflexivity|]. split; [exact Hfit|].
  split; [exact Hpos|]. intros Hi0. specialize (Hlater Hi0). lia.
Qed.

(** X3.  For a string with at least one run and no run of negative
    length, the null location is the result exactly for the offsets
    greater than the total length. *)
Theorem findPosition_null_iff_past_end nodes (N : nat) (index : Z)
    (delim : string) runs :
  nodes !! N = Some runs ->
  runs <> [] ->
  Forall (fun run => 0 <= run.2) runs ->
  findPosition N index delim nodes = Some (Location.mk None 0 delim)
  <-> runLength runs < index.
Proof.
  intros HN Hne Hpos. unfold findPosition. rewrite HN. split.
  - intros Hres. inversion Hres as [Hloc].
    destruct (scanRuns_null_past_end runs index delim Hne) as [Hlt _];
      [by rewrite Hloc|exact Hlt].
  - intros Hlt. f_equal. by apply scanRuns_past_end_null.
Qed.

(** X4.  Appending runs to string N changes no position of string N that
    was located on a node, and no position of any other string. *)
Theorem findPosition_append_runs nodes (N N' : nat) (index : Z)
    (delim : string) runs more loc :
  nodes !! N = Some runs ->
  findPosition N' index delim nodes = Some loc ->
  N' <> N \/ Location.node loc <> None ->
  findPosition N' index delim (<[N := runs ++ more]> nodes) = Some loc.
Proof.
  intros HN Hrun Hcond. unfold findPosition, HTMLNodeArray, NodeList in *.
  destruct (decide (N' = N)) as [->|Hne].
  - destruct Hcond as [?|Hfound]; [congruence|].
    rewrite HN in Hrun. inversion Hrun; subst loc; clear Hrun.
    rewrite list_lookup_insert_eq by (by eapply lookup_lt_Some).
    f_equal. by apply scanRuns_app_found.
  - by rewrite list_lookup_insert_ne.
Qed.

End FindPositionMore.

Section MathItemFacts.
Context {N T D : Type} {host : Host N T D}.

Import HTMLDocument.

Lemma mathItem_eq (item : ProtoItem.t (N + T)) (jax : InputJax.t N T)
    (nodes : HTMLNodeArray (N + T)) runs :
  nodes !! ProtoItem.n item = Some runs ->
  mathItem item jax nodes
  = Some (HTMLMathItem (ProtoItem.math item) jax (ProtoItem.display item)
            (scanRuns runs (Location.n (ProtoItem.start item))
               (ProtoItem.open item))
            (scanRuns runs (Location.n (ProtoItem.end_ item))
               (ProtoItem.close item))).
Proof. intros Hn. unfold mathItem, findPosition. rewrite Hn. reflexivity. Qed.

Lemma mathItem_none (item : ProtoItem.t (N + T)) (jax : InputJax.t N T)
    (nodes : HTMLNodeArray (N + T)) :
  nodes !! ProtoItem.n item = None -> mathItem item jax nodes = None.
Proof. intros Hn. unfold mathItem, findPosition. rewrite Hn. reflexivity. Qed.

Lemma mathItem_is_Some (item : ProtoItem.t (N + T)) (jax : InputJax.t N T)
    (nodes : HTMLNodeArray (N + T)) :
  is_Some (mathItem item jax nodes) <-> (ProtoItem.n item < length nodes)%nat.
Proof.
  destruct (nodes !! ProtoItem.n item) as [runs|] eqn:Hn.
  - rewrite (mathItem_eq _ _ _ _ Hn). split; [|eauto].
    intros _. exact (lookup_lt_Some nodes _ _ Hn).
  - rewrite (mathItem_none _ _ _ Hn). split.
    + intros [? ?]. discriminate.
    + intros Hlt. pose proof (proj1 (lookup_ge_None nodes _) Hn). lia.
Qed.

Lemma scanRuns_node_in (runs : NodeList (N + T)) index delim nd :
  Location.node (scanRuns runs index delim) = Some nd -> nd ∈ runs.*1.
Proof.
  intros Hnode.
  destruct (scanRuns_found runs index delim nd Hnode) as (i & len & Hi & _).
  apply list_elem_of_fmap. exists (nd, len). split; [reflexivity|].
  by eapply list_elem_of_lookup_2.
Qed.

(** X5.  mathItem throws exactly when the proto item's string index is
    not an index of the node array; the offsets play no part in that. *)
Theorem mathItem_throws_iff (item : ProtoItem.t (N + T)) (jax : InputJax.t N T)
    (nodes : HTMLNodeArray (N + T)) :
  mathItem item jax nodes = None <-> (length nodes <= ProtoItem.n item)%nat.
Proof.
  destruct (nodes !! ProtoItem.n item) as [runs|] eqn:Hn.
  - rewrite (mathItem_eq _ _ _ _ Hn). split; [discriminate|].
    intros Hge. pose proof (lookup_lt_Some nodes _ _ Hn). lia.
  - rewrite (mathItem_none _ _ _ Hn). split; [|reflexivity].
    intros _. exact (proj1 (lookup_ge_None nodes _) Hn).
Qed.

(** X6.  For a proto item whose string exists, mathItem returns an
    unprocessed item with the proto item's math and display and the given
    jax; its start carries the open delimiter and its end the close
    delimiter; a node of either is a node of that string's runs; and when
    the start offset is at most the end offset and the end has a node,
    the start has one too. *)
Theorem mathItem_located (item : ProtoItem.t (N + T)) (jax : InputJax.t N T)
    (nodes : HTMLNodeArray (N + T)) runs :
  nodes !! ProtoItem.n item = Some runs ->
  exists it,
    mathItem item jax nodes = Some it /\
    MathItem.math it = ProtoItem.math item /\
    MathItem.inputJax it = jax /\
    MathItem.display it = ProtoItem.display item /\
    MathItem.state it = STATE_UNPROCESSED /\
    Location.delim (MathItem.start it) = ProtoItem.open item /\
    Location.delim (MathItem.end_ it) = ProtoItem.close item /\
    (forall nd, Location.node (MathItem.start it) = Some nd \/
                Location.node (MathItem.end_ it) = Some nd -> nd ∈ runs.*1) /\
    (Location.n (ProtoItem.start item) <= Location.n (ProtoItem.end_ item) ->
     Location.node (MathItem.end_ it) <> None ->
     Location.node (MathItem.start it) <> None).
Proof.
  intros Hn. eexists. split; [exact (mathItem_eq item jax nodes runs Hn)|].
  simpl. do 4 (split; [reflexivity|]).
  split; [apply scanRuns_delim|]. split; [apply scanRuns_delim|]. split.
  - intros nd [H|H]; by eapply scanRuns_node_in.
  - intros Hle Hend.
    destruct (scanRuns_monotone runs _ _ (ProtoItem.open item)
                (ProtoItem.close item) Hle Hend)
      as (i1 & i2 & nd1 & len1 & nd2 & len2 & _ & _ & Hr1 & _).
    rewrite Hr1. discriminate.
Qed.

End MathItemFacts.

(** ** findMath and removeFromDocument *)

Section DocumentMore.
Context {N T D : Type} {host : Host N T D}.
Implicit Types (doc : HTMLDocument.t N T D) (item : MathItem.t N T).

Import HTMLDocument HTMLDocumentPage.

Lemma searchWith_strings_eq (container : N) jax doc (cache : StringCache N T) :
  InputJax.processStrings jax = true ->
  let found := default (domStringsFind container) cache in
  searchWith container jax (doc, cache)
  = (list ← mapM (fun math => mathItem math jax found.2)
              (InputJax.findMath jax (inr found.1));
     Some (setMath (merge (math doc) list)
             (record (FindInStrings jax found.1)
                (if cache is Some _ then doc
                 else record (ExtractStrings container) doc)),
           Some found)).
Proof.
  intros Hmode found. subst found. unfold searchWith. rewrite Hmode.
  destruct cache as [[strings nodes]|]; simpl.
  - reflexivity.
  - destruct (domStringsFind container) as [strings nodes]. reflexivity.
Qed.

Lemma mapM_mathItem_is_Some (container : N) jax :
  is_Some (mapM (fun math => mathItem math jax (domStringsFind container).2)
             (InputJax.findMath jax (inr (domStringsFind container).1)))
  <-> itemsInRange container jax.
Proof.
  rewrite mapM_is_Some. unfold itemsInRange. apply Forall_proper; [|reflexivity].
  intros math. apply mathItem_is_Some.
Qed.

Lemma eachJax_is_Some (container : N) jaxes doc (cache : StringCache N T) :
  cacheFor container cache ->
  is_Some (eachJax container jaxes (doc, cache))
  <-> Forall (fun jax => InputJax.processStrings jax = true ->
                         itemsInRange container jax) jaxes.
Proof.
  revert doc cache. induction jaxes as [|jax jaxes IH]; intros doc cache Hc.
  - simpl. split; [constructor|eauto].
  - rewrite eachJax_cons, Forall_cons.
    destruct (InputJax.processStrings jax) eqn:Hmode.
    + rewrite (searchWith_strings_eq _ _ _ _ Hmode). cbv zeta.
      assert (Hfound : default (domStringsFind container) cache
                       = domStringsFind container)
        by (destruct Hc as [->| ->]; reflexivity).
      rewrite Hfound, <- mapM_mathItem_is_Some.
      destruct (mapM _ _) as [list|]; simpl.
      * rewrite (IH _ _ (or_intror eq_refl)). split; [|tauto].
        intros Hrest. split; [eauto|exact Hrest].
      * split; [intros [? ?]; discriminate|].
        intros [Hin _]. destruct (Hin eq_refl). discriminate.
    + rewrite (searchWith_node _ _ _ _ Hmode). simpl.
      rewrite (IH _ _ Hc). split; [|tauto].
      intros Hrest. split; [discriminate|exact Hrest].
Qed.

Lemma eachContainer_is_Some (containers : list N) doc :
  is_Some (eachContainer containers doc)
  <-> Forall (fun container =>
                Forall (fun jax => InputJax.processStrings jax = true ->
                                   itemsInRange container jax) (inputJax doc))
             containers.
Proof.
  revert doc. induction containers as [|c containers IH]; intros doc.
  - simpl. split; [constructor|eauto].
  - rewrite eachContainer_cons, Forall_cons.
    pose proof (eachJax_is_Some c (inputJax doc) doc None (or_introl eq_refl))
      as Hjaxes.
    destruct (eachJax c (inputJax doc) (doc, None)) as [[doc1 cache1]|] eqn:Hone;
      simpl.
    + destruct (eachJax_calls _ _ _ _ _ _ (or_introl eq_refl) Hone) as (Hj & _).
      rewrite (IH doc1), Hj. split; [|tauto].
      intros Hrest. split; [|exact Hrest].
      apply Hjaxes. exists (doc1, cache1). exact Hone.
    + split; [intros [? ?]; discriminate|].
      intros [Hall _]. apply Hjaxes in Hall. destruct Hall as [st Hst].
      pose proof (eq_trans (eq_sym Hone) Hst). discriminate.
Qed.

(** The loops keep the fields they do not own. *)
Lemma eachJax_frame (container : N) jaxes doc (cache : StringCache N T)
    doc' cache' :
  eachJax container jaxes (doc, cache) = Some (doc', cache') ->
  processed doc' = processed doc /\
  adaptorDocument doc' = adaptorDocument doc /\
  inputJax doc' = inputJax doc /\
  document doc' = document doc.
Proof.
  revert doc cache. induction jaxes as [|jax jaxes IH]; intros doc cache Hrun.
  - simpl in Hrun. by inversion Hrun.
  - rewrite eachJax_cons in Hrun.
    destruct (searchWith container jax (doc, cache)) as [[doc1 cache1]|] eqn:Hone;
      simpl in Hrun; [|discriminate].
    destruct (IH _ _ Hrun) as (Hp & Ha & Hj & Hd).
    rewrite Hp, Ha, Hj, Hd. clear IH Hrun Hp Ha Hj Hd.
    destruct (InputJax.processStrings jax) eqn:Hmode.
    + rewrite (searchWith_strings_eq _ _ _ _ Hmode) in Hone. cbv zeta in Hone.
      destruct (mapM _ _) as [list|]; simpl in Hone; [|discriminate].
      inversion Hone; subst. by destruct cache.
    + rewrite (searchWith_node _ _ _ _ Hmode) in Hone. by inversion Hone.
Qed.

Lemma eachContainer_frame (containers : list N) doc doc' :
  eachContainer containers doc = Some doc' ->
  processed doc' = processed doc /\
  adaptorDocument doc' = adaptorDocument doc /\
  inputJax doc' = inputJax doc /\
  document doc' = document doc.
Proof.
  revert doc. induction containers as [|c containers IH]; intros doc Hrun.
  - simpl in Hrun. by inversion Hrun.
  - rewrite eachContainer_cons in Hrun.
    destruct (eachJax c (inputJax doc) (doc, None)) as [[doc1 cache1]|] eqn:Hone;
      simpl in Hrun; [|discriminate].
    destruct (IH _ Hrun) as (Hp & Ha & Hj & Hd).
    destruct (eachJax_frame _ _ _ _ _ _ Hone) as (Hp1 & Ha1 & Hj1 & Hd1).
    rewrite Hp, Ha, Hj, Hd. auto.
Qed.

Lemma eachContainer_no_jax (containers : list N) doc :
  inputJax doc = [] -> eachContainer containers doc = Some doc.
Proof.
  intros Hnone. induction containers as [|c containers IH]; [reflexivity|].
  rewrite eachContainer_cons, Hnone. simpl. exact IH.
Qed.

(** X7.  A findMath that finds the flag unset returns normally exactly
    when, for every container it goes through and every input jax with
    processStrings true, each proto item the jax reports for the
    container's strings names a string the container has; otherwise it
    throws (the TypeError of findPosition). *)
Theorem findMath_returns_iff (options : OptionList) doc :
  isProcessed "findMath" doc = false ->
  is_Some (findMath options doc)
  <-> (forall container jax,
         container ∈ getElements options (document doc) ->
         jax ∈ inputJax doc ->
         InputJax.processStrings jax = true ->
         itemsInRange container jax).
Proof.
  intros Hflag. unfold findMath. rewrite Hflag. simpl.
  transitivity (is_Some (eachContainer (getElements options (document doc))
                           (setAdaptorDocument doc))).
  - destruct (eachContainer _ _); simpl; split; intros [? ?]; eauto; discriminate.
  - rewrite eachContainer_is_Some. simpl. rewrite Forall_forall.
    split.
    + intros Hall c jax Hc Hjax. specialize (Hall c Hc).
      rewrite Forall_forall in Hall. by apply Hall.
    + intros Hall c Hc. apply Forall_forall. intros jax Hjax. by apply Hall.
Qed.

(** X8.  With no container to go through, or with no input jax, a
    findMath that finds the flag unset returns normally and only sets the
    adaptor's document and the flag: the math list and the record of
    calls are as before. *)
Theorem findMath_nothing_to_search (options : OptionList) doc :
  isProcessed "findMath" doc = false ->
  getElements options (document doc) = [] \/ inputJax doc = [] ->
  findMath options doc
  = Some (setProcessed "findMath" true (setAdaptorDocument doc)).
Proof.
  intros Hflag Hcase. unfold findMath. rewrite Hflag. simpl.
  destruct Hcase as [Hnone|Hnone].
  - rewrite Hnone. reflexivity.
  - rewrite eachContainer_no_jax by exact Hnone. reflexivity.
Qed.

(** X9.  A findMath that returns keeps the document, the input jax and
    every processed flag but its own, and the adaptor's document is the
    document afterwards unless the flag was already set. *)
Theorem findMath_frame (options : OptionList) doc doc1 :
  findMath options doc = Some doc1 ->
  document doc1 = document doc /\
  inputJax doc1 = inputJax doc /\
  (forall key, key <> "findMath" ->
     isProcessed key doc1 = isProcessed key doc) /\
  (isProcessed "findMath" doc = false ->
   adaptorDocument doc1 = Some (document doc)).
Proof.
  intros Hrun. unfold findMath in Hrun.
  destruct (isProcessed "findMath" doc) eqn:Hflag; simpl in Hrun.
  - inversion Hrun; subst. do 3 (split; [by auto|]). discriminate.
  - destruct (eachContainer _ _) as [doc'|] eqn:Hloop; simpl in Hrun;
      [|discriminate].
    inversion Hrun; subst doc1; clear Hrun.
    destruct (eachContainer_frame _ _ _ Hloop) as (Hp & Ha & Hj & Hd).
    simpl in *. split; [exact Hd|]. split; [exact Hj|]. split.
    + intros key Hkey. unfold isProcessed. simpl.
      rewrite lookup_insert_ne by congruence. by rewrite Hp.
    + intros _. exact Ha.
Qed.

Lemma removeFromDocument_processed (restore : bool) doc :
  processed (removeFromDocument restore doc)
  = <["updateDocument" := false]> (processed doc).
Proof.
  unfold removeFromDocument.
  destruct (isProcessed "updateDocument" doc); reflexivity.
Qed.

Lemma removeFromDocument_other_flags (restore : bool) doc key :
  key <> "updateDocument" ->
  isProcessed key (removeFromDocument restore doc) = isProcessed key doc.
Proof.
  intros Hkey. unfold isProcessed. rewrite removeFromDocument_processed.
  rewrite lookup_insert_ne by congruence. reflexivity.
Qed.

(** X10.  removeFromDocument does not undo the discovery: after a findMath
    that returned, and any number of removals, findMath still returns the
    document unchanged. *)
Theorem findMath_after_removeFromDocument (options options' : OptionList)
    (restores : list bool) doc doc1 :
  findMath options doc = Some doc1 ->
  let doc2 := foldr removeFromDocument doc1 restores in
  findMath options' doc2 = Some doc2.
Proof.
  intros Hrun doc2.
  assert (Hflag : isProcessed "findMath" doc1 = true).
  { unfold findMath in Hrun.
    destruct (isProcessed "findMath" doc) eqn:Hdoc; simpl in Hrun.
    - by inversion Hrun; subst.
    - destruct (eachContainer _ _) as [doc'|]; simpl in Hrun; [|discriminate].
      inversion Hrun; subst. apply isProcessed_setProcessed. }
  assert (Hflag2 : isProcessed "findMath" doc2 = true).
  { subst doc2. induction restores as [|r restores IH]; [exact Hflag|].
    simpl. rewrite removeFromDocument_other_flags by discriminate. exact IH. }
  unfold findMath. rewrite Hflag2. reflexivity.
Qed.



(** X12.  When TYPESET is below INSERTED, removeFromDocument raises no
    item's state, and after it, on a document whose updateDocument flag
    was set, every item is below INSERTED. *)
Theorem removeFromDocument_lowers (restore : bool) doc :
  STATE_TYPESET < STATE_INSERTED ->
  let doc1 := removeFromDocument restore doc in
  Forall2 (fun old new => MathItem.state new <= MathItem.state old)
          (math doc) (math doc1) /\
  (isProcessed "updateDocument" doc = true ->
   Forall (fun item => MathItem.state item < STATE_INSERTED) (math doc1)).
Proof.
  intros Horder doc1. subst doc1. unfold removeFromDocument.
  destruct (isProcessed "updateDocument" doc); cbn [math setProcessed setMath].
  - split.
    + apply Forall2_fmap_r, Forall_Forall2_diag, Forall_forall.
      intros item _. cbv beta delta [compose]. rewrite rollBack_state.
      destruct (Z.leb_spec STATE_INSERTED (MathItem.state item)); lia.
    + intros _. apply Forall_fmap, Forall_forall. intros item _.
      cbv beta delta [compose]. rewrite rollBack_state.
      destruct (Z.leb_spec STATE_INSERTED (MathItem.state item)); lia.
  - split; [|discriminate].
    apply Forall_Forall2_diag, Forall_forall. intros item _. lia.
Qed.

End DocumentMore.

(** ** findSheet, updateDocument and TestMath *)

Section PageFacts.
Context {N T D : Type} `{page : Page N T D}.
Implicit Types (doc : HTMLDocument.t N T D) (sheet : N) (id : option string).

Import HTMLDocument HTMLDocumentPage.

Lemma firstWithId_Some sheets id sheet :
  firstWithId sheets id = Some sheet
  <-> exists pre post,
        sheets = pre ++ sheet :: post /\
        getAttribute sheet "id" = id /\
        Forall (fun other => getAttribute other "id" <> id) pre.
Proof.
  induction sheets as [|first sheets IH]; simpl.
  - split; [discriminate|]. intros (pre & post & Heq & _).
    by destruct pre.
  - case_bool_decide as Hid.
    + split.
      * intros Hres. inversion Hres; subst first. exists [], sheets. auto.
      * intros (pre & post & Heq & Hsheet & Hpre).
        destruct pre as [|other pre]; simpl in Heq; inversion Heq; subst.
        -- reflexivity.
        -- inversion Hpre; subst. contradiction.
    + rewrite IH. split.
      * intros (pre & post & -> & Hsheet & Hpre).
        exists (first :: pre), post. auto.
      * intros (pre & post & Heq & Hsheet & Hpre).
        destruct pre as [|other pre]; simpl in Heq; inversion Heq; subst.
        -- contradiction.
        -- inversion Hpre; subst. eauto.
Qed.

Lemma firstWithId_None sheets id :
  firstWithId sheets id = None
  <-> Forall (fun other => getAttribute other "id" <> id) sheets.
Proof.
  induction sheets as [|first sheets IH]; simpl.
  - split; [constructor|reflexivity].
  - rewrite Forall_cons. case_bool_decide as Hid.
    + split; [discriminate|]. intros [Hne _]. contradiction.
    + rewrite IH. tauto.
Qed.

Lemma truthyId_true id :
  truthyId id = true <-> exists s, id = Some s /\ s <> "".
Proof.
  destruct id as [s|]; simpl.
  - destruct (String.eqb_spec s ""); simpl.
    + split; [discriminate|]. intros (s' & Heq & Hne). congruence.
    + split; [eauto|reflexivity].
  - split; [discriminate|]. intros (s & Heq & _). discriminate.
Qed.

(** X13.  findSheet returns a sheet exactly when the id is a non-empty
    string and the sheet is the first style element of the head whose id
    attribute is that string. *)
Theorem findSheet_first_match (head sheet : N) id :
  findSheet head id = Some sheet
  <-> exists s pre post,
        id = Some s /\ s <> "" /\
        adaptorTags head "style" = pre ++ sheet :: post /\
        getAttribute sheet "id" = Some s /\
        Forall (fun other => getAttribute other "id" <> Some s) pre.
Proof.
  unfold findSheet. destruct (truthyId id) eqn:Hid.
  - apply truthyId_true in Hid. destruct Hid as (s & -> & Hs).
    rewrite firstWithId_Some. split.
    + intros (pre & post & Htags & Hsheet & Hpre). exists s, pre, post. auto.
    + intros (s' & pre & post & Heq & _ & Htags & Hsheet & Hpre).
      inversion Heq; subst s'. eauto.
  - split; [discriminate|].
    intros (s & pre & post & -> & Hs & _).
    assert (truthyId (Some s) = true) by (apply truthyId_true; eauto).
    congruence.
Qed.

(** X14.  findSheet returns null exactly when the id is null or empty, or
    no style element of the head has that id attribute; so for an empty
    id nothing is found even if a style element has the empty id. *)
Theorem findSheet_null_iff (head : N) id :
  findSheet head id = None
  <-> id = None \/ id = Some "" \/
      Forall (fun other => getAttribute other "id" <> id)
             (adaptorTags head "style").
Proof.
  unfold findSheet. destruct (truthyId id) eqn:Hid.
  - apply truthyId_true in Hid. destruct Hid as (s & -> & Hs).
    rewrite firstWithId_None. split; [auto|].
    intros [Hnone|[Hempty|Hall]]; [discriminate|congruence|exact Hall].
  - split; [|reflexivity]. intros _.
    destruct id as [s|]; [|auto]. right. left.
    simpl in Hid. destruct (String.eqb_spec s ""); [congruence|discriminate].
Qed.

Lemma isProcessed_updateDocument doc :
  isProcessed "updateDocument" (updateDocument doc).1 = true.
Proof.
  unfold updateDocument.
  destruct (isProcessed "updateDocument" doc) eqn:Hflag; simpl.
  - exact Hflag.
  - apply isProcessed_setProcessed.
Qed.

(** X15.  updateDocument leaves its flag set, and a second call returns
    the document as it is and calls neither the super class nor the
    adaptor. *)
Theorem updateDocument_twice doc :
  isProcessed "updateDocument" (updateDocument doc).1 = true /\
  updateDocument (updateDocument doc).1 = ((updateDocument doc).1, []).
Proof.
  split; [apply isProcessed_updateDocument|].
  unfold updateDocument at 1. rewrite isProcessed_updateDocument. reflexivity.
Qed.

(** X16.  An updateDocument that finds its flag unset calls the super
    class once and then writes to the document at most once.  Without a
    style sheet it writes nothing.  With a sheet it either replaces or
    appends: replace(sheet, old) exactly when old is the first style
    element of the head whose id attribute is the sheet's non-empty id,
    and append(head, sheet) exactly when the sheet's id is null or empty
    or no style element of the head has it. *)
Theorem updateDocument_style_sheet doc :
  isProcessed "updateDocument" doc = false ->
  let doc1 := superUpdateDocument doc in
  let head := adaptorHead (document doc1) in
  match styleSheet doc1 with
  | None => (updateDocument doc).2 = [SuperUpdateDocument]
  | Some sheet =>
      (forall old,
         (updateDocument doc).2 = [SuperUpdateDocument; Replace sheet old]
         <-> exists s pre post,
               getAttribute sheet "id" = Some s /\ s <> "" /\
               adaptorTags head "style" = pre ++ old :: post /\
               getAttribute old "id" = Some s /\
               Forall (fun other => getAttribute other "id" <> Some s) pre) /\
      ((updateDocument doc).2 = [SuperUpdateDocument; Append head sheet]
       <-> getAttribute sheet "id" = None \/
           getAttribute sheet "id" = Some "" \/
           Forall (fun other =>
                     getAttribute other "id" <> getAttribute sheet "id")
                  (adaptorTags head "style")) /\
      ((exists old,
          (updateDocument doc).2 = [SuperUpdateDocument; Replace sheet old]) \/
       (updateDocument doc).2 = [SuperUpdateDocument; Append head sheet])
  end.
Proof.
  intros Hflag doc1 head. subst doc1 head. unfold updateDocument.
  rewrite Hflag. cbn [negb snd]. unfold documentStyleSheet.
  destruct (styleSheet (superUpdateDocument doc)) as [sheet|]; [|reflexivity].
  set (head := adaptorHead (document (superUpdateDocument doc))).
  set (id := getAttribute sheet "id").
  assert (Hfound : forall old,
             findSheet head id = Some old
             <-> exists s pre post,
                   id = Some s /\ s <> "" /\
                   adaptorTags head "style" = pre ++ old :: post /\
                   getAttribute old "id" = Some s /\
                   Forall (fun other => getAttribute other "id" <> Some s) pre).
  { intros old. unfold findSheet. destruct (truthyId id) eqn:Hid.
    - apply truthyId_true in Hid. destruct Hid as (s & Hs & Hne).
      rewrite Hs, firstWithId_Some. split.
      + intros (pre & post & Htags & Hold & Hpre). exists s, pre, post. auto.
      + intros (s' & pre & post & Heq & _ & Htags & Hold & Hpre).
        inversion Heq; subst s'. eauto.
    - split; [discriminate|].
      intros (s & pre & post & Hs & Hne & _).
      assert (truthyId id = true) by (apply truthyId_true; eauto).
      congruence. }
  assert (Hnone : findSheet head id = None
                  <-> id = None \/ id = Some "" \/
                      Forall (fun other => getAttribute other "id" <> id)
                             (adaptorTags head "style")).
  { unfold findSheet. destruct (truthyId id) eqn:Hid.
    - apply truthyId_true in Hid. destruct Hid as (s & Hs & Hne).
      rewrite firstWithId_None. split; [auto|].
      intros [Hn|[He|Hall]]; [congruence|congruence|exact Hall].
    - split; [|reflexivity]. intros _. destruct id as [s|]; [|auto].
      right. left. simpl in Hid.
      destruct (String.eqb_spec s ""); [congruence|discriminate]. }
  destruct (findSheet head id) as [found|] eqn:Hfind.
  - split; [|split].
    + intros old. rewrite <- Hfound. split.
      * intros Heq. inversion Heq. reflexivity.
      * intros Heq. inversion Heq. reflexivity.
    + split; [discriminate|]. intros Hcase. apply Hnone in Hcase. discriminate.
    + left. eauto.
  - split; [|split].
    + intros old. rewrite <- Hfound. split; discriminate.
    + split; [intros _; by apply Hnone|reflexivity].
    + right. reflexivity.
Qed.

(** X17.  removeFromDocument re-arms updateDocument: after a removal,
    updateDocument calls the super class again, on the document as the
    removal left it, and sets the flag again. *)
Theorem updateDocument_after_removeFromDocument (restore : bool) doc :
  let doc1 := removeFromDocument restore doc in
  exists dom,
    updateDocument doc1
    = (setProcessed "updateDocument" true (superUpdateDocument doc1),
       SuperUpdateDocument :: dom).
Proof.
  intros doc1.
  assert (Hflag : isProcessed "updateDocument" doc1 = false).
  { subst doc1. unfold removeFromDocument. apply isProcessed_setProcessed. }
  unfold updateDocument. rewrite Hflag. simpl. eauto.
Qed.

(** X18.  TestMath adds its item once.  A call that finds its flag unset
    pushes onto the math list the item made from the text, the first
    input jax and the display flag, and sets the flag; a call that finds
    the flag set returns the document as it is.  So a second call, with
    whatever text, changes nothing, nor does one after a removal; and no
    call touches a flag other than its own. *)
Theorem TestMath_once (text text' : string) (display display' restore : bool) doc :
  let doc1 := TestMath text display doc in
  (if isProcessed "TestMath" doc then doc1 = doc
   else math doc1
        = mathPush (math doc)
            (testMathItem text (inputJax doc !! 0%nat) display) /\
        inputJax doc1 = inputJax doc /\ calls doc1 = calls doc) /\
  isProcessed "TestMath" doc1 = true /\
  TestMath text' display' doc1 = doc1 /\
  (forall key, key <> "TestMath" -> isProcessed key doc1 = isProcessed key doc) /\
  TestMath text' display' (removeFromDocument restore doc1)
  = removeFromDocument restore doc1.
Proof.
  intros doc1.
  assert (Hflag : isProcessed "TestMath" doc1 = true).
  { subst doc1. unfold TestMath.
    destruct (isProcessed "TestMath" doc) eqn:Hdoc; simpl.
    - exact Hdoc.
    - apply isProcessed_setProcessed. }
  split.
  { subst doc1. unfold TestMath.
    destruct (isProcessed "TestMath" doc); simpl; auto. }
  split; [exact Hflag|].
  split; [unfold TestMath at 1; rewrite Hflag; reflexivity|]. split.
  - intros key Hkey. subst doc1. unfold TestMath.
    destruct (isProcessed "TestMath" doc); simpl; [reflexivity|].
    unfold isProcessed. simpl. by rewrite lookup_insert_ne by congruence.
  - unfold TestMath at 1.
    rewrite removeFromDocument_other_flags by discriminate.
    rewrite Hflag. reflexivity.
Qed.

End PageFacts.

(** ** AbstractInputJax *)

Section AbstractInputJaxFacts.
Context {N T D : Type} {host : Host N T D}.
Implicit Types (doc : HTMLDocument.t N T D).

Import HTMLDocument HTMLDocumentPage.

(** X19.  With input jax that all keep the defaults of AbstractInputJax
    (processStrings true, findMath finding nothing), a findMath that
    finds the flag unset returns normally whatever the strings of the
    containers are; it never hands a container to a jax, and it still
    extracts the strings of every container once if there is a jax at
    all. *)
Theorem findMath_with_default_jax (options : OptionList) doc :
  isProcessed "findMath" doc = false ->
  Forall (fun jax => exists name, jax = AbstractInputJax.make name)
         (inputJax doc) ->
  exists doc1 new,
    findMath options doc = Some doc1 /\
    calls doc1 = calls doc ++ new /\
    (forall jax c, FindInNode jax c ∉ new) /\
    extractions new
    = (if inputJax doc is [] then []
       else getElements options (document doc)).
Proof.
  intros Hflag Hdefault.
  assert (Hsome : is_Some (eachContainer (getElements options (document doc))
                             (setAdaptorDocument doc))).
  { apply eachContainer_is_Some. apply Forall_forall. intros c _. simpl.
    eapply Forall_impl; [exact Hdefault|].
    intros jax (name & ->) _. unfold itemsInRange. simpl. constructor. }
  destruct Hsome as [doc' Hloop].
  destruct (eachContainer_calls _ _ _ Hloop) as (new & Hcalls & Hx & Hn & _).
  exists (setProcessed "findMath" true doc'), new.
  split; [unfold findMath; rewrite Hflag; simpl; rewrite Hloop; reflexivity|].
  split; [exact Hcalls|]. split.
  - intros jax c Hin. apply Hn in Hin. destruct Hin as (_ & Hjax & Hmode).
    simpl in Hjax. rewrite Forall_forall in Hdefault.
    destruct (Hdefault jax Hjax) as (name & ->). discriminate.
  - rewrite Hx. simpl. destruct (inputJax doc) as [|jax jaxes]; [reflexivity|].
    inversion Hdefault as [|? ? (name & ->) _]; subst. reflexivity.
Qed.

End AbstractInputJaxFacts.

(** ** The braket handlers over more inputs *)

Section BraketMore.
Context {engine : Engine}.
Implicit Types (p : TexParser.t) (top : StackItem.t) (mml : MmlNode).

Import BraketMethods BraketRun.

Lemma barChar_other name : name <> "|" -> barChar name = PARALLEL.
Proof.
  intros Hname. unfold barChar.
  destruct (String.eqb_spec name "|"); [contradiction|reflexivity].
Qed.

Lemma doubleBar_other p c : c <> "|" -> doubleBar p c = (p, c).
Proof.
  intros Hc. unfold doubleBar.
  destruct (String.eqb_spec c "|"); [contradiction|reflexivity].
Qed.

Lemma doubleBar_single p (j : nat) next :
  GetNext (TexParser.str p) (TexParser.i p) = (j, next) ->
  next <> "|" ->
  doubleBar p "|" = (TexParser.setI j p, "|").
Proof.
  intros Hnext Hne. unfold doubleBar. simpl. rewrite Hnext.
  destruct (String.eqb_spec next "|"); [contradiction|reflexivity].
Qed.

(** Bar on a 'braket' top item, branch by branch: the item stays on top
    with its kind, gains nodes at the end, and keeps its properties
    except for barcount in the stretchy branch. *)
Lemma Bar_braket_cases p name top rest :
  TexParser.stack p = top :: rest ->
  StackItem.kind top = "braket" ->
  exists p' props' extra,
    Bar p name = Some p' /\
    TexParser.stack p'
    = StackItem.mk (StackItem.kind top) props' (StackItem.nodes top ++ extra)
        :: rest /\
    TexParser.str p' = TexParser.str p /\
    ((JS.ge (StackItem.getProperty "barcount" top)
            (StackItem.getProperty "barmax" top) = true /\
      props' = StackItem.properties top /\
      p' = TexParser.Push (inl (plainBar (barChar name))) p) \/
     (JS.ge (StackItem.getProperty "barcount" top)
            (StackItem.getProperty "barmax" top) = false /\
      JS.truthy (StackItem.getProperty "stretchy" top) = false /\
      props' = StackItem.properties top /\
      p' = TexParser.Push
             (inl (createToken "mo" (object [("stretchy", ABool false);
                                             ("braketbar", ABool true)])
                     (doubleBar p (barChar name)).2))
             (doubleBar p (barChar name)).1) \/
     (JS.ge (StackItem.getProperty "barcount" top)
            (StackItem.getProperty "barmax" top) = false /\
      JS.truthy (StackItem.getProperty "stretchy" top) = true /\
      props' = <["barcount" := JS.succ (StackItem.getProperty "barcount" top)]>
                 (StackItem.properties top))).
Proof.
  intros Hst Hkind.
  destruct (JS.ge (StackItem.getProperty "barcount" top)
                  (StackItem.getProperty "barmax" top)) eqn:Hroom.
  - eexists _, _, _.
    split; [exact (Bar_fallback_eq p name top rest Hst (or_intror Hroom))|].
    rewrite (Push_node_braket p top rest _ Hst Hkind).
    split; [reflexivity|]. split; [reflexivity|]. left. auto.
  - pose proof (Bar_accepted_eq p name top rest Hst Hkind Hroom) as Hbar.
    cbv zeta in Hbar.
    destruct (doubleBar_frame p (barChar name)) as (Hst1 & _ & Hs1 & _).
    rewrite Hst in Hst1.
    destruct (JS.truthy (StackItem.getProperty "stretchy" top)) eqn:Hs.
    + eexists _, _, _. split; [exact Hbar|]. rewrite Hkind.
      split; [reflexivity|]. split; [reflexivity|]. right. right. auto.
    + eexists _, _, _. split; [exact Hbar|].
      rewrite (Push_node_braket _ top rest _ Hst1 Hkind).
      split; [reflexivity|]. split; [exact Hs1|]. right. left. auto.
Qed.

(** X21.  On a 'braket' top item Bar never pushes or pops a stack item:
    the items below stay, the top item keeps its kind and every property
    other than barcount, its nodes are kept and only extended at the end,
    and the parser's string is not changed. *)
Theorem Bar_keeps_braket_frame p name top rest :
  TexParser.stack p = top :: rest ->
  StackItem.kind top = "braket" ->
  exists p' top' extra,
    Bar p name = Some p' /\
    TexParser.stack p' = top' :: rest /\
    StackItem.kind top' = "braket" /\
    (forall key, key <> "barcount" ->
       StackItem.getProperty key top' = StackItem.getProperty key top) /\
    StackItem.nodes top' = StackItem.nodes top ++ extra /\
    TexParser.str p' = TexParser.str p.
Proof.
  intros Hst Hkind.
  destruct (Bar_braket_cases p name top rest Hst Hkind)
    as (p' & props' & extra & Hbar & Hst' & Hstr & Hcases).
  eexists p', _, extra. split; [exact Hbar|]. split; [exact Hst'|].
  split; [exact Hkind|]. split; [|split; [reflexivity|exact Hstr]].
  intros key Hkey. unfold StackItem.getProperty. simpl.
  destruct Hcases as [(_ & -> & _)|[(_ & _ & -> & _)|(_ & _ & ->)]];
    try reflexivity.
  by apply lookup_insert_ne.
Qed.

(** X22.  With integer counters and barcount at most barmax on a 'braket'
    top item, Bar keeps barcount at most barmax: afterwards it is the
    same number or one more, and never more than barmax. *)
Theorem Bar_keeps_barcount_bounded p name top rest (count max : Z) :
  TexParser.stack p = top :: rest ->
  StackItem.kind top = "braket" ->
  StackItem.getProperty "barcount" top = Some (PNum (Int count)) ->
  StackItem.getProperty "barmax" top = Some (PNum (Int max)) ->
  count <= max ->
  exists p' top' count',
    Bar p name = Some p' /\
    TexParser.stack p' = top' :: rest /\
    StackItem.getProperty "barcount" top' = Some (PNum (Int count')) /\
    StackItem.getProperty "barmax" top' = Some (PNum (Int max)) /\
    count <= count' <= count + 1 /\
    count' <= max.
Proof.
  intros Hst Hkind Hcount Hmax Hle.
  destruct (Bar_braket_cases p name top rest Hst Hkind)
    as (p' & props' & extra & Hbar & Hst' & _ & Hcases).
  rewrite Hcount, Hmax in Hcases. simpl in Hcases.
  destruct Hcases as [(_ & -> & _)|[(_ & _ & -> & _)|(Hroom & _ & ->)]].
  - eexists p', _, count. split; [exact Hbar|]. split; [exact Hst'|].
    split; [exact Hcount|]. split; [exact Hmax|]. lia.
  - eexists p', _, count. split; [exact Hbar|]. split; [exact Hst'|].
    split; [exact Hcount|]. split; [exact Hmax|]. lia.
  - apply Z.leb_gt in Hroom.
    eexists p', _, (count + 1). split; [exact Hbar|]. split; [exact Hst'|].
    split; [apply lookup_insert_eq|].
    split; [unfold StackItem.getProperty; simpl;
            rewrite lookup_insert_ne by discriminate; exact Hmax|].
    lia.
Qed.

(** X23.  On a 'braket' top item with barcount below barmax whose
    stretchy property is not truthy, Bar pushes exactly one node, the mo
    token with stretchy false and braketbar true, and writes no property:
    barcount is as before. *)
Theorem Bar_plain_braket_token p name top rest :
  TexParser.stack p = top :: rest ->
  StackItem.kind top = "braket" ->
  JS.ge (StackItem.getProperty "barcount" top)
        (StackItem.getProperty "barmax" top) = false ->
  JS.truthy (StackItem.getProperty "stretchy" top) = false ->
  exists p' c,
    Bar p name = Some p' /\
    (c = barChar name \/ c = PARALLEL) /\
    TexParser.journal p'
    = TexParser.journal p ++
      [Pushed (inl (createToken "mo" (object [("stretchy", ABool false);
                                              ("braketbar", ABool true)]) c))] /\
    TexParser.stack p'
    = StackItem.mk (StackItem.kind top) (StackItem.properties top)
        (StackItem.nodes top ++
         [TexParser.absorbed
            (createToken "mo" (object [("stretchy", ABool false);
                                       ("braketbar", ABool true)]) c)])
      :: rest.
Proof.
  intros Hst Hkind Hroom Hplain.
  pose proof (Bar_accepted_eq p name top rest Hst Hkind Hroom) as Hbar.
  cbv zeta in Hbar. rewrite Hplain in Hbar.
  destruct (doubleBar_frame p (barChar name)) as (Hst1 & Hj1 & _ & Hc).
  rewrite Hst in Hst1.
  eexists _, _. split; [exact Hbar|]. split; [exact Hc|].
  rewrite (Push_node_braket _ top rest _ Hst1 Hkind). simpl.
  rewrite Hj1. split; reflexivity.
Qed.

(** X24.  For a name other than '|' Bar does not look ahead: on every
    stack with a top item it leaves the position where it is and the one
    mo token it pushes carries U+2225. *)
Theorem Bar_other_name_keeps_position p name top rest :
  TexParser.stack p = top :: rest ->
  name <> "|" ->
  exists p' new,
    Bar p name = Some p' /\
    TexParser.i p' = TexParser.i p /\
    TexParser.journal p' = TexParser.journal p ++ new /\
    pushedTokens new = [("mo", "∥")].
Proof.
  intros Hst Hname.
  assert (Hpar : PARALLEL <> "|") by discriminate.
  destruct (String.eqb_spec (StackItem.kind top) "braket") as [Hkind|Hkind];
    [destruct (JS.ge (StackItem.getProperty "barcount" top)
                     (StackItem.getProperty "barmax" top)) eqn:Hroom|].
  - eexists _, [_].
    split; [exact (Bar_fallback_eq p name top rest Hst (or_intror Hroom))|].
    rewrite (barChar_other name Hname). repeat split; reflexivity.
  - pose proof (Bar_accepted_eq p name top rest Hst Hkind Hroom) as Hbar.
    cbv zeta in Hbar. rewrite (barChar_other name Hname) in Hbar.
    rewrite (doubleBar_other p PARALLEL Hpar) in Hbar. cbn [fst snd] in Hbar.
    destruct (JS.truthy (StackItem.getProperty "stretchy" top)).
    + eexists _, _. split; [exact Hbar|]. repeat split; reflexivity.
    + eexists _, [_]. split; [exact Hbar|]. repeat split; reflexivity.
  - eexists _, [_].
    split; [exact (Bar_fallback_eq p name top rest Hst (or_introl Hkind))|].
    rewrite (barChar_other name Hname). repeat split; reflexivity.
Qed.

(** X25.  For '|' on a 'braket' top item with barcount below barmax, when
    the look-ahead does not return '|': the position it moved the parser
    to is kept (blanks it skipped stay skipped), and the one mo token
    pushed carries the single bar. *)
Theorem Bar_single_bar_keeps_lookahead p top rest (j : nat) next :
  TexParser.stack p = top :: rest ->
  StackItem.kind top = "braket" ->
  JS.ge (StackItem.getProperty "barcount" top)
        (StackItem.getProperty "barmax" top) = false ->
  GetNext (TexParser.str p) (TexParser.i p) = (j, next) ->
  next <> "|" ->
  exists p' new,
    Bar p "|" = Some p' /\
    TexParser.i p' = j /\
    TexParser.journal p' = TexParser.journal p ++ new /\
    pushedTokens new = [("mo", "|")].
Proof.
  intros Hst Hkind Hroom Hnext Hne.
  pose proof (Bar_accepted_eq p "|" top rest Hst Hkind Hroom) as Hbar.
  cbv zeta in Hbar. change (barChar "|") with "|" in Hbar.
  rewrite (doubleBar_single p j next Hnext Hne) in Hbar. cbn [fst snd] in Hbar.
  destruct (JS.truthy (StackItem.getProperty "stretchy" top)).
  - eexists _, _. split; [exact Hbar|]. repeat split; reflexivity.
  - eexists _, [_]. split; [exact Hbar|]. repeat split; reflexivity.
Qed.

(** One Bar on a stretchy 'braket' top item with a numeric barcount. *)
Lemma Bar_stretchy_step p name top rest (count : Z) (barmax : Number) :
  TexParser.stack p = top :: rest ->
  StackItem.kind top = "braket" ->
  StackItem.getProperty "stretchy" top = Some (PBool true) ->
  StackItem.getProperty "barcount" top = Some (PNum (Int count)) ->
  StackItem.getProperty "barmax" top = Some (PNum barmax) ->
  exists p' top',
    Bar p name = Some p' /\
    TexParser.stack p' = top' :: rest /\
    StackItem.kind top' = "braket" /\
    StackItem.getProperty "stretchy" top' = Some (PBool true) /\
    StackItem.getProperty "barmax" top' = Some (PNum barmax) /\
    StackItem.getProperty "barcount" top'
    = Some (PNum (Int (if JS.ge (Some (PNum (Int count))) (Some (PNum barmax))
                       then count else count + 1))).
Proof.
  intros Hst Hkind Hstretchy Hcount Hmax.
  destruct (Bar_braket_cases p name top rest Hst Hkind)
    as (p' & props' & extra & Hbar & Hst' & _ & Hcases).
  rewrite Hcount, Hmax, Hstretchy in Hcases.
  eexists p', _. split; [exact Hbar|]. split; [exact Hst'|].
  split; [exact Hkind|]. unfold StackItem.getProperty in *. simpl.
  destruct Hcases as [(-> & -> & _)|[(_ & Hs & _)|(-> & _ & ->)]].
  - auto.
  - simpl in Hs. discriminate.
  - rewrite !lookup_insert_ne by discriminate.
    split; [exact Hstretchy|]. split; [exact Hmax|]. apply lookup_insert_eq.
Qed.

(** X26.  Bar called k times in a row on a stretchy 'braket' top item
    with integer counters, barcount c at most barmax m: all calls return,
    the item stays on top, and barcount ends at min(c + k, m); the bars
    beyond barmax do not count. *)
Theorem bars_count_up_to_barmax (names : list string) p top rest (count max : Z) :
  TexParser.stack p = top :: rest ->
  StackItem.kind top = "braket" ->
  StackItem.getProperty "stretchy" top = Some (PBool true) ->
  StackItem.getProperty "barcount" top = Some (PNum (Int count)) ->
  StackItem.getProperty "barmax" top = Some (PNum (Int max)) ->
  count <= max ->
  exists p' top',
    bars names p = Some p' /\
    TexParser.stack p' = top' :: rest /\
    StackItem.kind top' = "braket" /\
    StackItem.getProperty "barcount" top'
    = Some (PNum (Int (Z.min (count + Z.of_nat (length names)) max))).
Proof.
  revert p top count.
  induction names as [|name names IH];
    intros p top count Hst Hkind Hstretchy Hcount Hmax Hle.
  - exists p, top. simpl. split; [reflexivity|]. split; [exact Hst|].
    split; [exact Hkind|]. rewrite Hcount. do 3 f_equal. lia.
  - destruct (Bar_stretchy_step p name top rest count (Int max)
                Hst Hkind Hstretchy Hcount Hmax)
      as (p1 & top1 & Hbar & Hst1 & Hkind1 & Hstretchy1 & Hmax1 & Hcount1).
    change (JS.ge (Some (PNum (Int count))) (Some (PNum (Int max))))
      with (max <=? count) in Hcount1.
    destruct (IH p1 top1 _ Hst1 Hkind1 Hstretchy1 Hcount1 Hmax1)
      as (p' & top' & Hrun & Hst' & Hkind' & Hcount').
    { destruct (Z.leb_spec max count); lia. }
    exists p', top'. cbn [bars]. rewrite Hbar. simpl.
    split; [exact Hrun|]. split; [exact Hst'|]. split; [exact Hkind'|].
    rewrite Hcount'. do 3 f_equal. cbn [length].
    destruct (Z.leb_spec max count); lia.
Qed.

(** X27.  With barmax Infinity no bar ever falls back: Bar called k times
    in a row on a stretchy 'braket' top item with barcount c leaves
    barcount at c + k. *)
Theorem bars_count_without_bound (names : list string) p top rest (count : Z) :
  TexParser.stack p = top :: rest ->
  StackItem.kind top = "braket" ->
  StackItem.getProperty "stretchy" top = Some (PBool true) ->
  StackItem.getProperty "barcount" top = Some (PNum (Int count)) ->
  StackItem.getProperty "barmax" top = Some (PNum Infinity) ->
  exists p' top',
    bars names p = Some p' /\
    TexParser.stack p' = top' :: rest /\
    StackItem.kind top' = "braket" /\
    StackItem.getProperty "barcount" top'
    = Some (PNum (Int (count + Z.of_nat (length names)))).
Proof.
  revert p top count.
  induction names as [|name names IH];
    intros p top count Hst Hkind Hstretchy Hcount Hmax.
  - exists p, top. simpl. split; [reflexivity|]. split; [exact Hst|].
    split; [exact Hkind|]. rewrite Hcount. do 3 f_equal. lia.
  - destruct (Bar_stretchy_step p name top rest count Infinity
                Hst Hkind Hstretchy Hcount Hmax)
      as (p1 & top1 & Hbar & Hst1 & Hkind1 & Hstretchy1 & Hmax1 & Hcount1).
    change (JS.ge (Some (PNum (Int count))) (Some (PNum Infinity)))
      with false in Hcount1.
    destruct (IH p1 top1 _ Hst1 Hkind1 Hstretchy1 Hcount1 Hmax1)
      as (p' & top' & Hrun & Hst' & Hkind' & Hcount').
    exists p', top'. cbn [bars]. rewrite Hbar. simpl.
    split; [exact Hrun|]. split; [exact Hst'|]. split; [exact Hkind'|].
    rewrite Hcount'. do 3 f_equal. cbn [length]. lia.
Qed.

(** X28.  With an engine that puts a pushed stack item on top of the
    stack, Braket followed by Bar returns normally: the new 'braket' item
    is on top of the old stack with barmax as given, and its barcount is
    0 if the comparison 0 >= barmax holds (barmax an integer that is 0 or
    less); if it does not hold (barmax a positive integer, Infinity or
    NaN) barcount is 1 for a stretchy item and 0 for one that is not. *)
Theorem Braket_then_Bar p name name' (open close : string) (stretchy : bool)
    (barmax : Number) :
  (forall item st, stackPush (inr item) st = item :: st) ->
  exists p' top',
    Bar (Braket p name open close stretchy barmax) name' = Some p' /\
    TexParser.stack p' = top' :: TexParser.stack p /\
    StackItem.kind top' = "braket" /\
    StackItem.getProperty "barcount" top'
    = Some (PNum (Int (if JS.ge (Some (PNum (Int 0))) (Some (PNum barmax))
                       then 0 else if stretchy then 1 else 0))) /\
    StackItem.getProperty "barmax" top' = Some (PNum barmax).
Proof.
  intros Hopens.
  destruct (Braket_item open close stretchy barmax)
    as (Hk & _ & Hc & Hm & _ & _ & Hs).
  cbv zeta in Hk, Hc, Hm, Hs.
  set (item := StackItem.setProperties _ _) in *.
  assert (Hst : TexParser.stack (Braket p name open close stretchy barmax)
                = item :: TexParser.stack p).
  { unfold Braket, TexParser.Push, TexParser.stackPushOne. simpl.
    fold item. destruct (TexParser.stack p); apply Hopens. }
  destruct (Bar_braket_cases _ name' item _ Hst Hk)
    as (p' & props' & extra & Hbar & Hst' & _ & Hcases).
  rewrite Hc, Hm, Hs in Hcases.
  eexists p', _. split; [exact Hbar|]. split; [exact Hst'|].
  split; [exact Hk|]. unfold StackItem.getProperty in *. simpl.
  destruct Hcases as [(-> & -> & _)|[(-> & Hplain & -> & _)|(-> & Hstr & ->)]].
  - auto.
  - simpl in Hplain. destruct stretchy; [discriminate|]. auto.
  - simpl in Hstr. subst stretchy.
    split; [apply lookup_insert_eq|].
    rewrite lookup_insert_ne by discriminate. exact Hm.
Qed.

(** X29.  A BraketItem that is offered 'mml' items one after the other
    takes each in without asking the super class and stays on the stack:
    its kind and properties are unchanged and its nodes are extended, in
    order, by the MathML of the items; a 'close' item offered next gets a
    single 'mml' item made from all of them. *)
Theorem offerAll_mml_then_close (items : list StackItem.t)
    (this closing : StackItem.t) :
  Forall (fun item => StackItem.kind item = "mml") items ->
  StackItem.kind closing = "close" ->
  let this' := StackItem.mk (StackItem.kind this) (StackItem.properties this)
                 (StackItem.nodes this ++ map superToMml items) in
  offerAll items this = Some this' /\
  BraketItem.checkItem this' closing
  = Some (this',
          (Some [inr (StackItem.create "mml" [BraketItem.toMml this'])], true)).
Proof.
  intros Hmml Hclose this'. subst this'. split.
  - revert this. induction Hmml as [|item items Hkind _ IH]; intros this.
    + simpl. rewrite app_nil_r. by destruct this.
    + cbn [offerAll]. unfold BraketItem.checkItem, StackItem.isKind.
      rewrite Hkind. simpl. rewrite IH. simpl.
      rewrite <- app_assoc. reflexivity.
  - unfold BraketItem.checkItem, StackItem.isKind. rewrite Hclose. reflexivity.
Qed.

End BraketMore.

(** ** Concrete runs for Part III *)

Section MoreExamples.

Import Sample SamplePage HTMLDocument HTMLDocumentPage BraketMethods BraketRun.

Local Existing Instance Sample.host.
Local Existing Instance Sample.engine.
Local Existing Instance SamplePage.page.

Lemma findPosition_monotone_witness :
  exists loc1 (i1 i2 : nat) nd1 len1 nd2 len2,
    findPosition 0 2 "$" twoRuns = Some loc1 /\
    [(1%nat, 3); (2%nat, 4)] !! i1 = Some (nd1, len1) /\
    [(1%nat, 3); (2%nat, 4)] !! i2 = Some (nd2, len2) /\
    loc1 = Location.mk (Some nd1)
             (2 - runLength (take i1 [(1%nat, 3); (2%nat, 4)])) "$" /\
    Location.mk (Some 2%nat) 2 "$$"
    = Location.mk (Some nd2)
        (5 - runLength (take i2 [(1%nat, 3); (2%nat, 4)])) "$$" /\
    (i1 <= i2)%nat /\
    (i1 = i2 -> Location.n loc1 <= 2).
Proof.
  apply (findPosition_monotone twoRuns 0 2 5 "$" "$$" [(1%nat, 3); (2%nat, 4)]
           (Location.mk (Some 2%nat) 2 "$$")).
  - reflexivity.
  - lia.
  - reflexivity.
  - discriminate.
Defined.

Lemma findPosition_offset_in_run_witness :
  exists (i : nat) len,
    [(1%nat, 3); (2%nat, 4)] !! i = Some (2%nat, len) /\
    2 = 5 - runLength (take i [(1%nat, 3); (2%nat, 4)]) /\
    2 <= len /\ (0 <= 5 -> 0 <= 2) /\ ((0 < i)%nat -> 1 <= 2).
Proof.
  apply (findPosition_offset_in_run twoRuns 0 5 "$" [(1%nat, 3); (2%nat, 4)]
           (Location.mk (Some 2%nat) 2 "$") 2%nat); reflexivity.
Defined.

Lemma findPosition_null_iff_past_end_witness :
  findPosition 0 8 "$" twoRuns = Some (Location.mk None 0 "$")
  <-> runLength [(1%nat, 3); (2%nat, 4)] < 8.
Proof.
  apply (findPosition_null_iff_past_end twoRuns 0 8 "$" [(1%nat, 3); (2%nat, 4)]).
  - reflexivity.
  - discriminate.
  - repeat constructor; simpl; lia.
Defined.

Lemma findPosition_append_runs_witness :
  findPosition 0 5 "$" (<[0%nat := [(1%nat, 3); (2%nat, 4)] ++ [(3%nat, 6)]]> twoRuns)
  = Some (Location.mk (Some 2%nat) 2 "$").
Proof.
  apply (findPosition_append_runs twoRuns 0 0 5 "$" [(1%nat, 3); (2%nat, 4)]
           [(3%nat, 6)]).
  - reflexivity.
  - reflexivity.
  - right. discriminate.
Defined.

(** Appended text does move an offset that was past the end. *)
Example findPosition_append_runs_past_end :
  findPosition 0 8 "$" twoRuns = Some (Location.mk None 0 "$") /\
  findPosition 0 8 "$" (<[0%nat := [(1%nat, 3); (2%nat, 4)] ++ [(3%nat, 6)]]> twoRuns)
  = Some (Location.mk (Some 3%nat) 1 "$").
Proof. split; reflexivity. Qed.

Lemma mathItem_located_witness :
  exists it,
    mathItem (ProtoItem.mk "x" (Location.mk None 0 "$") (Location.mk None 3 "$")
                "$" "$" 0%nat false)
             texJax [[(inr 5%nat, 3)]] = Some it /\
    MathItem.state it = 0.
Proof.
  destruct (mathItem_located (host := Sample.host)
              (ProtoItem.mk "x" (Location.mk None 0 "$") (Location.mk None 3 "$")
                 "$" "$" 0%nat false)
              texJax [[(inr 5%nat, 3)]] [(inr 5%nat, 3)] eq_refl)
    as (it & Hit & _ & _ & _ & Hstate & _).
  exists it. split; [exact Hit|exact Hstate].
Defined.

(** A jax that names a string the container does not have makes findMath
    throw; nothing is returned. *)
Example findMath_stray_index :
  findMath [5%nat] (newDocument [mmlJax; strayJax] [] ∅) = None.
Proof. vm_compute. reflexivity. Qed.

Lemma findMath_returns_iff_witness :
  is_Some (findMath [5%nat; 7%nat] (newDocument [texJax; mmlJax] [] ∅))
  <-> (forall container jax,
         container ∈ [5%nat; 7%nat] ->
         jax ∈ [texJax; mmlJax] ->
         InputJax.processStrings jax = true ->
         itemsInRange container jax).
Proof.
  apply (findMath_returns_iff (host := Sample.host) [5%nat; 7%nat]
           (newDocument [texJax; mmlJax] [] ∅)).
  reflexivity.
Defined.

Lemma findMath_nothing_to_search_witness :
  findMath [] (newDocument [texJax] renderedItems ∅)
  = Some (setProcessed "findMath" true
            (setAdaptorDocument (newDocument [texJax] renderedItems ∅))).
Proof.
  apply (findMath_nothing_to_search (host := Sample.host) []
           (newDocument [texJax] renderedItems ∅)).
  - reflexivity.
  - left. reflexivity.
Defined.

Lemma findMath_frame_witness :
  let doc := newDocument [texJax; mmlJax] [] {["updateDocument" := true]} in
  exists doc1,
    findMath [5%nat] doc = Some doc1 /\
    inputJax doc1 = inputJax doc /\
    isProcessed "updateDocument" doc1 = true.
Proof.
  intros doc.
  pose (doc1 := default doc (findMath [5%nat] doc)).
  assert (Hrun : findMath [5%nat] doc = Some doc1) by (vm_compute; reflexivity).
  destruct (findMath_frame (host := Sample.host) [5%nat] doc doc1 Hrun)
    as (_ & Hjax & Hflags & _).
  exists doc1. split; [exact Hrun|]. split; [exact Hjax|].
  rewrite (Hflags "updateDocument") by discriminate. reflexivity.
Defined.

Lemma findMath_after_removeFromDocument_witness :
  let doc := newDocument [texJax] [] {["updateDocument" := true]} in
  exists doc1,
    findMath [5%nat] doc = Some doc1 /\
    findMath [7%nat] (foldr removeFromDocument doc1 [true; false])
    = Some (foldr removeFromDocument doc1 [true; false]).
Proof.
  intros doc.
  pose (doc1 := default doc (findMath [5%nat] doc)).
  assert (Hrun : findMath [5%nat] doc = Some doc1) by (vm_compute; reflexivity).
  exists doc1. split; [exact Hrun|].
  exact (findMath_after_removeFromDocument (host := Sample.host) [5%nat] [7%nat]
           [true; false] doc doc1 Hrun).
Defined.

Lemma removeFromDocument_lowers_witness :
  let doc := newDocument [texJax] renderedItems {["updateDocument" := true]} in
  Forall (fun item => MathItem.state item < 3)
         (math (removeFromDocument false doc)).
Proof.
  intros doc.
  destruct (removeFromDocument_lowers (host := Sample.host) false doc)
    as (_ & Hbelow).
  - reflexivity.
  - apply Hbelow. reflexivity.
Defined.

(** The sample head has two style elements with the sheet's id; the first
    of them is the one replaced. *)
Example updateDocument_replaces_first :
  (updateDocument (newDocument [texJax] renderedItems ∅)).2
  = [SuperUpdateDocument; Replace 20%nat 11%nat].
Proof. vm_compute. reflexivity. Qed.

Lemma updateDocument_style_sheet_witness :
  let doc := newDocument [texJax] renderedItems ∅ in
  (updateDocument doc).2 = [SuperUpdateDocument; Replace 20%nat 11%nat].
Proof.
  intros doc.
  pose proof (updateDocument_style_sheet (page := SamplePage.page) doc eq_refl)
    as Hsheet.
  cbv zeta in Hsheet.
  change (styleSheet (superUpdateDocument doc)) with (Some 20%nat) in Hsheet.
  destruct Hsheet as (Hreplace & _).
  apply Hreplace. exists "MJX-styles", [10%nat], [12%nat].
  split; [reflexivity|]. split; [discriminate|]. split; [reflexivity|].
  split; [reflexivity|]. constructor; [discriminate|constructor].
Defined.

(** The second TestMath adds nothing. *)
Example TestMath_adds_one :
  map MathItem.math
    (math (TestMath "y" false (TestMath "x" true (newDocument [texJax] [] ∅))))
  = ["x"].
Proof. vm_compute. reflexivity. Qed.

Lemma findMath_with_default_jax_witness :
  let doc := newDocument [AbstractInputJax.make "generic"] [] ∅ in
  exists doc1 new,
    findMath [5%nat; 7%nat] doc = Some doc1 /\
    calls doc1 = calls doc ++ new /\
    extractions new = [5%nat; 7%nat].
Proof.
  intros doc.
  destruct (findMath_with_default_jax (host := Sample.host) [5%nat; 7%nat] doc)
    as (doc1 & new & Hrun & Hcalls & _ & Hx).
  - reflexivity.
  - repeat constructor. exists "generic". reflexivity.
  - exists doc1, new. split; [exact Hrun|]. split; [exact Hcalls|exact Hx].
Defined.

(** An empty stack: Bar throws. *)
Example Bar_on_empty_stack : Bar (parser "|" 1 []) "|" = None.
Proof. reflexivity. Qed.

Lemma Bar_keeps_braket_frame_witness :
  let top := braketItem false 0 (Int 1) in
  let p := parser "{x|y}" 3 [top; start] in
  exists p' top',
    Bar p "|" = Some p' /\
    TexParser.stack p' = [top'; start] /\
    StackItem.getProperty "barmax" top' = StackItem.getProperty "barmax" top.
Proof.
  intros top p.
  destruct (Bar_keeps_braket_frame (engine := Sample.engine) p "|" top [start]
              eq_refl eq_refl)
    as (p' & top' & extra & Hbar & Hst & _ & Hprops & _).
  exists p', top'. split; [exact Hbar|]. split; [exact Hst|].
  apply Hprops. discriminate.
Defined.

Lemma Bar_keeps_barcount_bounded_witness :
  let top := braketItem true 1 (Int 1) in
  let p := parser "{x|y|z}" 5 [top; start] in
  exists p' top' count',
    Bar p "|" = Some p' /\
    TexParser.stack p' = [top'; start] /\
    StackItem.getProperty "barcount" top' = Some (PNum (Int count')) /\
    count' <= 1.
Proof.
  intros top p.
  destruct (Bar_keeps_barcount_bounded (engine := Sample.engine) p "|" top
              [start] 1 1 eq_refl eq_refl eq_refl eq_refl)
    as (p' & top' & count' & Hbar & Hst & Hcount & _ & _ & Hle).
  - lia.
  - exists p', top', count'. auto.
Defined.

Lemma Bar_plain_braket_token_witness :
  let top := braketItem false 0 (Int 1) in
  let p := parser "{x|y}" 3 [top; start] in
  exists p' c,
    Bar p "|" = Some p' /\
    TexParser.journal p'
    = [Pushed (inl (createToken "mo" (object [("stretchy", ABool false);
                                              ("braketbar", ABool true)]) c))].
Proof.
  intros top p.
  destruct (Bar_plain_braket_token (engine := Sample.engine) p "|" top [start]
              eq_refl eq_refl eq_refl eq_refl)
    as (p' & c & Hbar & _ & Hjournal & _).
  exists p', c. split; [exact Hbar|exact Hjournal].
Defined.

Lemma Bar_other_name_keeps_position_witness :
  let p := parser "{x\||y}" 4 [braketItem true 0 (Int 2); start] in
  exists p' new,
    Bar p "\|" = Some p' /\
    TexParser.i p' = 4%nat /\
    pushedTokens new = [("mo", "∥")].
Proof.
  intros p.
  destruct (Bar_other_name_keeps_position (engine := Sample.engine) p "\|"
              (braketItem true 0 (Int 2)) [start] eq_refl)
    as (p' & new & Hbar & Hi & _ & Htokens).
  - discriminate.
  - exists p', new. auto.
Defined.

Lemma Bar_single_bar_keeps_lookahead_witness :
  let p := parser "{x|  y}" 3 [braketItem true 0 (Int 2); start] in
  exists p' new,
    Bar p "|" = Some p' /\
    TexParser.i p' = 5%nat /\
    pushedTokens new = [("mo", "|")].
Proof.
  intros p.
  destruct (Bar_single_bar_keeps_lookahead (engine := Sample.engine) p
              (braketItem true 0 (Int 2)) [start] 5 "y"
              eq_refl eq_refl eq_refl eq_refl)
    as (p' & new & Hbar & Hi & _ & Htokens).
  - discriminate.
  - exists p', new. auto.
Defined.

Lemma bars_count_up_to_barmax_witness :
  let top := braketItem true 0 (Int 2) in
  let p := parser "{a|b|c|d}" 3 [top; start] in
  exists p' top',
    bars ["|"; "|"; "|"] p = Some p' /\
    TexParser.stack p' = [top'; start] /\
    StackItem.getProperty "barcount" top' = Some (PNum (Int 2)).
Proof.
  intros top p.
  destruct (bars_count_up_to_barmax (engine := Sample.engine) ["|"; "|"; "|"]
              p top [start] 0 2 eq_refl eq_refl eq_refl eq_refl eq_refl)
    as (p' & top' & Hrun & Hst & _ & Hcount).
  - lia.
  - exists p', top'. auto.
Defined.

Lemma bars_count_without_bound_witness :
  let top := braketItem true 0 Infinity in
  let p := parser "<a|b|c|d>" 3 [top; start] in
  exists p' top',
    bars ["|"; "|"; "|"] p = Some p' /\
    TexParser.stack p' = [top'; start] /\
    StackItem.getProperty "barcount" top' = Some (PNum (Int 3)).
Proof.
  intros top p.
  destruct (bars_count_without_bound (engine := Sample.engine) ["|"; "|"; "|"]
              p top [start] 0 eq_refl eq_refl eq_refl eq_refl eq_refl)
    as (p' & top' & Hrun & Hst & _ & Hcount).
  exists p', top'. auto.
Defined.

Lemma Braket_then_Bar_witness :
  exists p' top',
    Bar (Braket (parser "{x|y}" 0 [start]) "\Set" "{" "}" true (Int 1)) "|"
    = Some p' /\
    TexParser.stack p' = [top'; start] /\
    StackItem.getProperty "barcount" top' = Some (PNum (Int 1)).
Proof.
  destruct (Braket_then_Bar (engine := Sample.engine) (parser "{x|y}" 0 [start])
              "\Set" "|" "{" "}" true (Int 1))
    as (p' & top' & Hbar & Hst & _ & Hcount & _).
  - intros item st. reflexivity.
  - exists p', top'. auto.
Defined.

Lemma offerAll_mml_then_close_witness :
  let this := braketItem false 0 (Int 1) in
  let x := createToken "mi" ∅ "x" in
  let y := createToken "mi" ∅ "y" in
  offerAll [StackItem.create "mml" [x]; StackItem.create "mml" [y]] this
  = Some (StackItem.mk (StackItem.kind this) (StackItem.properties this) [x; y]).
Proof.
  intros this x y.
  exact (proj1 (offerAll_mml_then_close (engine := Sample.engine)
                  [StackItem.create "mml" [x]; StackItem.create "mml" [y]]
                  this (StackItem.create "close" [])
                  ltac:(repeat constructor) eq_refl)).
Defined.

End MoreExamples.
